(** * pymongo.write_concern: the WriteConcern value type

    A shallow embedding of [pymongo/write_concern.py].  Python values are an
    inductive type, dictionaries are insertion-ordered association lists
    living in a store of mutable objects, exceptions are the left summand of
    a state-and-error monad, and [WriteConcern.__init__] is transcribed
    statement by statement in that monad. *)

From Stdlib Require Import ZArith String List Bool Lia.
From Stdlib Require Import Floats.SpecFloat.
From Stdlib Require Import DecimalString.
Import ListNotations.

Local Open Scope string_scope.
Local Open Scope list_scope.
Local Open Scope Z_scope.

(* ================================================================== *)
(** ** Python values *)

(** The builtin values a caller can pass for [w], [wtimeout], [j] and
    [fsync].  [bool] is a subclass of [int] in Python, which [isinstance_int]
    below records; floats are kept as IEEE-754 data ([spec_float]). *)
Inductive pyval : Type :=
| PNone
| PBool (b : bool)
| PInt (z : Z)
| PFloat (x : spec_float)
| PStr (s : string)
| PBytes (bs : list Byte.byte).

(** [x is not None]. *)
Definition is_not_None (v : pyval) : bool :=
  match v with PNone => false | _ => true end.

(** [isinstance(x, int)]: true of [int] and of its subclass [bool]. *)
Definition isinstance_int (v : pyval) : bool :=
  match v with PBool _ | PInt _ => true | _ => false end.

(** [isinstance(x, bool)]. *)
Definition isinstance_bool (v : pyval) : bool :=
  match v with PBool _ => true | _ => false end.

(** [isinstance(x, str)]. *)
Definition isinstance_str (v : pyval) : bool :=
  match v with PStr _ => true | _ => false end.

(** The integer value of an instance of [int] ([True] is 1, [False] is 0). *)
Definition int_value (v : pyval) : option Z :=
  match v with
  | PBool b => Some (if b then 1 else 0)
  | PInt z => Some z
  | _ => None
  end.

(** [x < 0] and [x > 0]; the constructor evaluates them on instances of
    [int] only. *)
Definition py_lt0 (v : pyval) : bool :=
  match int_value v with Some z => z <? 0 | None => false end.

Definition py_gt0 (v : pyval) : bool :=
  match int_value v with Some z => 0 <? z | None => false end.

(** Truth value testing, as [if x] and [x and y] perform it. *)
Definition truthy (v : pyval) : bool :=
  match v with
  | PNone => false
  | PBool b => b
  | PInt z => negb (z =? 0)
  | PFloat (S754_zero _) => false
  | PFloat _ => true
  | PStr s => negb (String.eqb s "")
  | PBytes bs => match bs with [] => false | _ => true end
  end.

(** [x is True]: identity with the [True] singleton. *)
Definition is_True (v : pyval) : bool :=
  match v with PBool true => true | _ => false end.

(** Exact comparison of a float with an integer: the float [m * 2^e]
    equals [z]. *)
Definition float_eq_int (x : spec_float) (z : Z) : bool :=
  match x with
  | S754_zero _ => z =? 0
  | S754_finite s m e =>
      let v := if s then Z.neg m else Z.pos m in
      if 0 <=? e then z =? v * 2 ^ e else z * 2 ^ (- e) =? v
  | _ => false
  end.

(** [x == y] on builtin values: numbers compare by value across [bool],
    [int] and [float]; strings with strings, bytes with bytes, [None] with
    [None]; everything else is unequal. *)
Definition py_eq (x y : pyval) : bool :=
  match x, y with
  | PNone, PNone => true
  | PStr s, PStr t => String.eqb s t
  | PBytes a, PBytes b =>
      if list_eq_dec Byte.byte_eq_dec a b then true else false
  | PFloat a, PFloat b => SFeqb a b
  | PFloat a, _ =>
      match int_value y with Some z => float_eq_int a z | None => false end
  | _, PFloat b =>
      match int_value x with Some z => float_eq_int b z | None => false end
  | _, _ =>
      match int_value x, int_value y with
      | Some a, Some b => a =? b
      | _, _ => false
      end
  end.

(* ================================================================== *)
(** ** Dictionaries *)

(** A [dict]: keys in insertion order, each key once. *)
Definition dict := list (string * pyval).

Fixpoint dict_get (d : dict) (k : string) : option pyval :=
  match d with
  | [] => None
  | (k', v) :: d' => if String.eqb k k' then Some v else dict_get d' k
  end.

(** [d[k] = v]: an existing key keeps its position, a new key goes last. *)
Fixpoint dict_set (d : dict) (k : string) (v : pyval) : dict :=
  match d with
  | [] => [(k, v)]
  | (k', v') :: d' =>
      if String.eqb k k' then (k, v) :: d' else (k', v') :: dict_set d' k v
  end.

(** [d.pop(k, None)]: the key goes if it is there. *)
Fixpoint dict_pop (d : dict) (k : string) : dict :=
  match d with
  | [] => []
  | (k', v') :: d' =>
      if String.eqb k k' then d' else (k', v') :: dict_pop d' k
  end.

(** [bool(d)]: a dict is truthy when it is not empty. *)
Definition dict_truthy (d : dict) : bool :=
  match d with [] => false | _ => true end.

(** [a == b] on dicts: same length, and every key of [a] is a key of [b]
    with an equal value.  Insertion order plays no part. *)
Definition dict_eqb (a b : dict) : bool :=
  Nat.eqb (length a) (length b) &&
  forallb (fun kv : string * pyval =>
             match dict_get b (fst kv) with
             | Some bv => py_eq (snd kv) bv
             | None => false
             end) a.

Definition dict_keys (d : dict) : list string := map fst d.

(* ================================================================== *)
(** ** The store and the monad *)

(** References to dict objects, and the store that holds them.  A
    reference is the index of its cell; a dict is created at the end of the
    store.  Python never hands out a dangling reference, so reading one
    (which no run of the code below does) is given the empty dict and
    writing one leaves the store as it is. *)
Definition loc := nat.
Definition heap := list dict.

Definition heap_get (h : heap) (r : loc) : dict := nth r h [].

Fixpoint heap_update (h : heap) (r : loc) (f : dict -> dict) : heap :=
  match h, r with
  | [], _ => []
  | d :: h', O => f d :: h'
  | d :: h', S r' => d :: heap_update h' r' f
  end.

(** The exceptions the module raises, with their messages. *)
Inductive exn : Type :=
| TypeError (msg : string)
| ValueError (msg : string)
| ConfigurationError (msg : string).

(** A computation: it reads and writes the store and either raises or
    returns. *)
Definition M (A : Type) : Type := heap -> (exn + A) * heap.

Definition ret {A} (a : A) : M A := fun h => (inr a, h).

Definition raise {A} (e : exn) : M A := fun h => (inl e, h).

Definition bind {A B} (m : M A) (k : A -> M B) : M B :=
  fun h =>
    match m h with
    | (inl e, h') => (inl e, h')
    | (inr a, h') => k a h'
    end.

Notation "x <- m ;; k" := (bind m (fun x => k))
  (at level 61, m at next level, right associativity).
Notation "m ;;; k" := (bind m (fun _ => k))
  (at level 61, right associativity).

(** [{}]: a new empty dict. *)
Definition dict_new : M loc :=
  fun h => (inr (length h), h ++ [[]]).

(** [r[k] = v]. *)
Definition dict_setitem (r : loc) (k : string) (v : pyval) : M unit :=
  fun h => (inr tt, heap_update h r (fun d => dict_set d k v)).

(** [r.pop(k, None)], its result dropped. *)
Definition dict_popitem (r : loc) (k : string) : M unit :=
  fun h => (inr tt, heap_update h r (fun d => dict_pop d k)).

(** [r.clear()]. *)
Definition dict_clear (r : loc) : M unit :=
  fun h => (inr tt, heap_update h r (fun _ => [])).

(** [r.copy()]: a new dict with the same items in the same order. *)
Definition dict_copy (r : loc) : M loc :=
  fun h => (inr (length h), h ++ [heap_get h r]).

(** [not r]. *)
Definition dict_not (r : loc) : M bool :=
  fun h => (inr (negb (dict_truthy (heap_get h r))), h).

(** [r1 == r2] and [r1 != r2] on two dict objects. *)
Definition dict_eq (r1 r2 : loc) : M bool :=
  fun h => (inr (dict_eqb (heap_get h r1) (heap_get h r2)), h).

Definition dict_ne (r1 r2 : loc) : M bool :=
  fun h => (inr (negb (dict_eqb (heap_get h r1) (heap_get h r2))), h).

(* ================================================================== *)
(** ** class WriteConcern *)

(** An instance: its three slots.  [__document] holds a reference to a
    dict object; the other two hold booleans. *)
Record WriteConcern : Type := mkWriteConcern {
  __document : loc;
  __acknowledged : bool;
  __server_default : bool
}.

(** What [other] may be in [self == other]. *)
Inductive pyobj : Type :=
| OWriteConcern (other : WriteConcern)
| OValue (v : pyval).

(** What a rich comparison method returns. *)
Inductive cmp_result : Type :=
| CBool (b : bool)
| NotImplemented.

(** [WriteConcern.__init__(self, w=None, wtimeout=None, j=None,
    fsync=None)].  An absent argument is [PNone].  The slots of [self] are
    assigned as the body goes; the instance is returned when the body
    completes, which is when a caller first holds it. *)
Definition __init__ (w wtimeout j fsync : pyval) : M WriteConcern :=
  document <- dict_new ;;
  let acknowledged := true in
  (if is_not_None wtimeout then
     if negb (isinstance_int wtimeout) then
       raise (TypeError "wtimeout must be an integer")
     else if py_lt0 wtimeout then
       raise (ValueError "wtimeout cannot be less than 0")
     else dict_setitem document "wtimeout" wtimeout
   else ret tt) ;;;
  (if is_not_None j then
     if negb (isinstance_bool j) then
       raise (TypeError "j must be True or False")
     else dict_setitem document "j" j
   else ret tt) ;;;
  (if is_not_None fsync then
     if negb (isinstance_bool fsync) then
       raise (TypeError "fsync must be True or False")
     else if truthy j && truthy fsync then
       raise (ConfigurationError "Can't set both j and fsync at the same time")
     else dict_setitem document "fsync" fsync
   else ret tt) ;;;
  (if py_eq w (PInt 0) && is_True j then
     raise (ConfigurationError "Cannot set w to 0 and j to True")
   else ret tt) ;;;
  acknowledged <-
    (if is_not_None w then
       acknowledged <-
         (if isinstance_int w then
            if py_lt0 w then raise (ValueError "w cannot be less than 0")
            else ret (py_gt0 w)
          else if negb (isinstance_str w) then
            raise (TypeError "w must be an integer or string")
          else ret acknowledged) ;;
       dict_setitem document "w" w ;;;
       ret acknowledged
     else ret acknowledged) ;;
  server_default <- dict_not document ;;
  ret (mkWriteConcern document acknowledged server_default).

(** The [is_server_default] property. *)
Definition is_server_default (self : WriteConcern) : M bool :=
  ret (__server_default self).

(** The [document] property: a copy of the private dict. *)
Definition document (self : WriteConcern) : M loc :=
  dict_copy (__document self).

(** The [acknowledged] property. *)
Definition acknowledged (self : WriteConcern) : M bool :=
  ret (__acknowledged self).

(** [WriteConcern.__eq__(self, other)]. *)
Definition __eq__ (self : WriteConcern) (other : pyobj) : M cmp_result :=
  match other with
  | OWriteConcern o =>
      d <- document o ;;
      b <- dict_eq (__document self) d ;;
      ret (CBool b)
  | OValue _ => ret NotImplemented
  end.

(** [WriteConcern.__ne__(self, other)]. *)
Definition __ne__ (self : WriteConcern) (other : pyobj) : M cmp_result :=
  match other with
  | OWriteConcern o =>
      d <- document o ;;
      b <- dict_ne (__document self) d ;;
      ret (CBool b)
  | OValue _ => ret NotImplemented
  end.

(** [DEFAULT_WRITE_CONCERN = WriteConcern()], the statement the module runs
    when it is imported; every user of the constant shares its result. *)
Definition DEFAULT_WRITE_CONCERN : M WriteConcern :=
  __init__ PNone PNone PNone PNone.

(* ================================================================== *)
(** ** The specification's vocabulary *)

(** The three kinds of construction failure. *)
Inductive kind : Type := TypeKind | RangeKind | ConfigurationKind.

Definition kind_of (e : exn) : kind :=
  match e with
  | TypeError _ => TypeKind
  | ValueError _ => RangeKind
  | ConfigurationError _ => ConfigurationKind
  end.

Definition kind_eqb (a b : kind) : bool :=
  match a, b with
  | TypeKind, TypeKind | RangeKind, RangeKind
  | ConfigurationKind, ConfigurationKind => true
  | _, _ => false
  end.

(** How a run ended: the kind of the exception, or [None] when it
    returned. *)
Definition failure {A} (r : (exn + A) * heap) : option kind :=
  match fst r with
  | inl e => Some (kind_of e)
  | inr _ => None
  end.

(** A validation rule: when the four arguments violate it, and the kind of
    error it reports.  Each rule is stated on the arguments alone. *)
Record rule : Type := mkRule {
  violated : pyval -> pyval -> pyval -> pyval -> bool;
  rule_kind : kind
}.

Definition wtimeout_type : rule :=
  mkRule (fun w wtimeout j fsync =>
            is_not_None wtimeout && negb (isinstance_int wtimeout)) TypeKind.

Definition wtimeout_range : rule :=
  mkRule (fun w wtimeout j fsync => py_lt0 wtimeout) RangeKind.

Definition j_type : rule :=
  mkRule (fun w wtimeout j fsync =>
            is_not_None j && negb (isinstance_bool j)) TypeKind.

Definition fsync_type : rule :=
  mkRule (fun w wtimeout j fsync =>
            is_not_None fsync && negb (isinstance_bool fsync)) TypeKind.

Definition j_fsync_conflict : rule :=
  mkRule (fun w wtimeout j fsync => truthy j && truthy fsync)
         ConfigurationKind.

Definition w0_j_conflict : rule :=
  mkRule (fun w wtimeout j fsync => py_eq w (PInt 0) && is_True j)
         ConfigurationKind.

Definition w_range : rule :=
  mkRule (fun w wtimeout j fsync => py_lt0 w) RangeKind.

Definition w_type : rule :=
  mkRule (fun w wtimeout j fsync =>
            is_not_None w && negb (isinstance_int w) && negb (isinstance_str w))
         TypeKind.

(** The rules in the order the specification fixes: the [wtimeout] checks,
    the [j] check, the [fsync] checks with the [j]-and-[fsync] conflict, the
    [w == 0]-with-[j] conflict, the [w] checks. *)
Definition rules : list rule :=
  [ wtimeout_type; wtimeout_range; j_type; fsync_type; j_fsync_conflict;
    w0_j_conflict; w_range; w_type ].

(** The kind of the earliest violated rule, if any rule is violated. *)
Definition first_violated (w wtimeout j fsync : pyval) : option kind :=
  option_map rule_kind (find (fun r => violated r w wtimeout j fsync) rules).

(** The fields that were explicitly supplied, under their canonical keys,
    in the order wtimeout, j, fsync, w. *)
Definition field (k : string) (v : pyval) : dict :=
  if is_not_None v then [(k, v)] else [].

Definition supplied_fields (w wtimeout j fsync : pyval) : dict :=
  field "wtimeout" wtimeout ++ field "j" j ++ field "fsync" fsync ++ field "w" w.

(** The value [__init__] leaves in [__acknowledged] when it completes. *)
Definition acknowledged_of (w : pyval) : bool :=
  if isinstance_int w then py_gt0 w else true.

(** A live instance: [self] was returned by the constructor, its private
    dict is a cell of the store, and that cell is as the constructor left
    it.  (The slot is name-mangled and no method of the class writes it.) *)
Definition constructed (h : heap) (self : WriteConcern) : Prop :=
  exists w wtimeout j fsync h0 h1,
    __init__ w wtimeout j fsync h0 = (inr self, h1) /\
    (__document self < length h)%nat /\
    heap_get h (__document self) = heap_get h1 (__document self).

(** What a caller can do to a dict it holds a reference to. *)
Inductive mutation : Type :=
| SetItem (k : string) (v : pyval)
| PopItem (k : string)
| Clear.

Definition mutate (r : loc) (m : mutation) : M unit :=
  match m with
  | SetItem k v => dict_setitem r k v
  | PopItem k => dict_popitem r k
  | Clear => dict_clear r
  end.

Fixpoint mutate_all (r : loc) (ms : list mutation) : M unit :=
  match ms with
  | [] => ret tt
  | m :: ms' => mutate r m ;;; mutate_all r ms'
  end.

(** Two dicts are the same mapping: every key is in both or in neither,
    and where it is in both the values are equal ([==]). *)
Definition same_mapping (a b : dict) : Prop :=
  forall k,
    match dict_get a k, dict_get b k with
    | Some x, Some y => py_eq x y = true
    | None, None => True
    | _, _ => False
    end.

(** The values a document can hold: instances of [int] (so also [bool])
    and of [str]. *)
Definition doc_value (v : pyval) : bool :=
  isinstance_int v || isinstance_str v.

(** The boolean a comparison method returned, if it returned one. *)
Definition answer (r : (exn + cmp_result) * heap) : option bool :=
  match fst r with
  | inr (CBool b) => Some b
  | _ => None
  end.

(** The dict a run returned a reference to, read in the store the run
    left. *)
Definition returned_dict (r : (exn + loc) * heap) : option dict :=
  match fst r with
  | inr l => Some (heap_get (snd r) l)
  | inl _ => None
  end.

(** The value a run returned. *)
Definition returned {A} (r : (exn + A) * heap) : option A :=
  match fst r with
  | inr a => Some a
  | inl _ => None
  end.

(** [wtimeout], [j] and [fsync] pass their own checks. *)
Definition valid_wtimeout (wtimeout : pyval) : bool :=
  negb (is_not_None wtimeout) ||
  (isinstance_int wtimeout && negb (py_lt0 wtimeout)).

Definition valid_flag (v : pyval) : bool :=
  negb (is_not_None v) || isinstance_bool v.

(** An argument as the document records it: absent arguments are not
    recorded. *)
Definition supplied (v : pyval) : option pyval :=
  if is_not_None v then Some v else None.

(** The canonical keys, in validation order. *)
Definition canonical_keys : list string := ["wtimeout"; "j"; "fsync"; "w"].

(** Acknowledgement read as depending on the integer [0] alone: an
    instance built from these arguments is unacknowledged exactly when [w]
    is the [int] 0. *)
Definition unacknowledged_iff_int_zero
    (w wtimeout j fsync : pyval) (h : heap) : Prop :=
  forall self h1,
    __init__ w wtimeout j fsync h = (inr self, h1) ->
    returned (acknowledged self h1) = Some false <-> w = PInt 0.

(** The configuration error read as depending on the two conflicts alone. *)
Definition configuration_iff_conflict
    (w wtimeout j fsync : pyval) (h : heap) : Prop :=
  failure (__init__ w wtimeout j fsync h) = Some ConfigurationKind <->
  (j = PBool true /\ fsync = PBool true) \/
  (py_eq w (PInt 0) = true /\ j = PBool true).

(** Some supplied value has the wrong shape; some supplied integer is
    negative. *)
Definition wrong_shape (w wtimeout j fsync : pyval) : bool :=
  violated wtimeout_type w wtimeout j fsync ||
  violated j_type w wtimeout j fsync ||
  violated fsync_type w wtimeout j fsync ||
  violated w_type w wtimeout j fsync.

Definition negative_number (w wtimeout j fsync : pyval) : bool :=
  violated wtimeout_range w wtimeout j fsync ||
  violated w_range w wtimeout j fsync.

(** The type and range errors read as depending on shape and sign alone. *)
Definition kind_by_shape_and_sign
    (w wtimeout j fsync : pyval) (h : heap) : Prop :=
  (failure (__init__ w wtimeout j fsync h) = Some TypeKind <->
   wrong_shape w wtimeout j fsync = true) /\
  (failure (__init__ w wtimeout j fsync h) = Some RangeKind <->
   negative_number w wtimeout j fsync = true).

(** One of the two conflicts holds. *)
Definition conflict (w wtimeout j fsync : pyval) : bool :=
  violated j_fsync_conflict w wtimeout j fsync ||
  violated w0_j_conflict w wtimeout j fsync.

(** Every check that comes before the checks of [w] passes. *)
Definition reaches_w (w wtimeout j fsync : pyval) : bool :=
  valid_wtimeout wtimeout && valid_flag j && valid_flag fsync &&
  negb (conflict w wtimeout j fsync).

(** The effect of one mutation on the dict it is applied to. *)
Definition apply_mutation (d : dict) (m : mutation) : dict :=
  match m with
  | SetItem k v => dict_set d k v
  | PopItem k => dict_pop d k
  | Clear => []
  end.

(** A dict as the constructor can leave one: no key twice, every value an
    [int], a [bool] or a [str]. *)
Definition well_formed (d : dict) : Prop :=
  NoDup (dict_keys d) /\ Forall (fun kv => doc_value (snd kv) = true) d.

(* ================================================================== *)
(** ** __repr__ *)

(** [r.items()], read in insertion order. *)
Definition dict_items (r : loc) : M dict :=
  fun h => (inr (heap_get h r), h).

Section Repr.

(** How [str] prints a float and a bytes object is the interpreter's
    business; the module only passes values to it. *)
Variable str_float : spec_float -> string.
Variable str_bytes : list Byte.byte -> string.

(** [str(v)], which is what [%s] formats with. *)
Definition py_str (v : pyval) : string :=
  match v with
  | PNone => "None"
  | PBool true => "True"
  | PBool false => "False"
  | PInt z => NilZero.string_of_int (Z.to_int z)
  | PFloat x => str_float x
  | PStr s => s
  | PBytes bs => str_bytes bs
  end.

(** ["%s=%s" % kvt] for an item [kvt] of the dict. *)
Definition format_item (kvt : string * pyval) : string :=
  (fst kvt ++ "=" ++ py_str (snd kvt))%string.

(** [WriteConcern.__repr__(self)]. *)
Definition __repr__ (self : WriteConcern) : M string :=
  items <- dict_items (__document self) ;;
  ret ("WriteConcern(" ++ String.concat ", " (map format_item items) ++ ")")%string.

End Repr.

(* ================================================================== *)
(** ** Vocabulary for the properties of the whole class *)

(** The exception a run raised, if it raised one. *)
Definition raised {A} (r : (exn + A) * heap) : option exn :=
  match fst r with
  | inl e => Some e
  | inr _ => None
  end.

(** Each rule with the exception the constructor raises for it, in
    validation order. *)
Definition rule_errors : list (rule * exn) :=
  [ (wtimeout_type, TypeError "wtimeout must be an integer");
    (wtimeout_range, ValueError "wtimeout cannot be less than 0");
    (j_type, TypeError "j must be True or False");
    (fsync_type, TypeError "fsync must be True or False");
    (j_fsync_conflict,
     ConfigurationError "Can't set both j and fsync at the same time");
    (w0_j_conflict, ConfigurationError "Cannot set w to 0 and j to True");
    (w_range, ValueError "w cannot be less than 0");
    (w_type, TypeError "w must be an integer or string") ].

(** The exception of the earliest violated rule. *)
Definition first_error (w wtimeout j fsync : pyval) : option exn :=
  option_map snd
    (find (fun re => violated (fst re) w wtimeout j fsync) rule_errors).

(** The argument that a call unpacking [doc] as keyword arguments passes
    for the parameter [k]: the entry of [doc] under [k], or the default
    [None]. *)
Definition keyword (doc : dict) (k : string) : pyval :=
  match dict_get doc k with
  | Some v => v
  | None => PNone
  end.

(** The instance [a] is live in [h'] with the private dict it had in
    [h]. *)
Definition unchanged (h h' : heap) (a : WriteConcern) : Prop :=
  constructed h' a /\
  heap_get h' (__document a) = heap_get h (__document a).
(* ================================================================== *)
(** ** The store: reading and writing cells *)

Section Store.

Variables (h : heap) (d : dict) (f : dict -> dict).

Lemma heap_get_last : heap_get (h ++ [d]) (length h) = d.
Proof.
  unfold heap_get. rewrite app_nth2, Nat.sub_diag by lia. reflexivity.
Qed.

Lemma heap_get_old (l : heap) (r : loc) :
  (r < length h)%nat -> heap_get (h ++ l) r = heap_get h r.
Proof. intros Hr. unfold heap_get. now rewrite app_nth1. Qed.

Lemma heap_update_last : heap_update (h ++ [d]) (length h) f = h ++ [f d].
Proof. induction h as [|c t IH]; simpl; [reflexivity | now rewrite IH]. Qed.

Lemma heap_update_length (r : loc) : length (heap_update h r f) = length h.
Proof.
  revert r; induction h as [|c t IH]; intros [|r]; simpl; auto.
Qed.

Lemma heap_get_update_other (r r' : loc) :
  r <> r' -> heap_get (heap_update h r f) r' = heap_get h r'.
Proof.
  unfold heap_get. revert r r'.
  induction h as [|c t IH]; intros [|r] [|r'] Hne; simpl; auto; congruence.
Qed.

Lemma heap_get_update_same (r : loc) :
  (r < length h)%nat -> heap_get (heap_update h r f) r = f (heap_get h r).
Proof.
  unfold heap_get. revert r.
  induction h as [|c t IH]; intros [|r] Hr; simpl in *; try lia; auto.
  apply IH; lia.
Qed.

End Store.

(* ================================================================== *)
(** ** What a run of the constructor does *)

Ltac run_step :=
  repeat (progress (cbn; rewrite ?heap_update_last, ?heap_get_last,
                      ?andb_false_r, ?andb_true_r)).

Ltac run_done :=
  first [ reflexivity | eexists _, _; split; reflexivity ].

(** The constructor, run in any store [h]: it adds one cell, the private
    dict, and touches nothing else; it raises an error of the kind of the
    earliest violated rule, or, when no rule is violated, returns the
    instance over the supplied fields. *)
Lemma init_run (w wtimeout j fsync : pyval) (h : heap) :
  match first_violated w wtimeout j fsync with
  | Some k =>
      exists e cell,
        __init__ w wtimeout j fsync h = (inl e, h ++ [cell]) /\ kind_of e = k
  | None =>
      __init__ w wtimeout j fsync h =
        (inr (mkWriteConcern (length h) (acknowledged_of w)
                (negb (dict_truthy (supplied_fields w wtimeout j fsync)))),
         h ++ [supplied_fields w wtimeout j fsync])
  end.
Proof.
  unfold first_violated, rules, __init__, supplied_fields, field,
    acknowledged_of.
  destruct wtimeout as [|[]|zt|xt|st|bst]; run_step; try run_done.
  all: try (destruct (Z.ltb_spec zt 0) as [Hzt|Hzt]; run_step;
            [ run_done | ]).
  all: destruct j as [|[]|zj|xj|sj|bsj]; run_step; try run_done.
  all: destruct fsync as [|[]|zf|xf|sf|bsf]; run_step; try run_done.
  all: destruct w as [|[]|z|x|s|bs]; run_step; try run_done.
  all: try (destruct (Z.eqb_spec z 0); run_step; try run_done).
  all: try (destruct (Z.ltb_spec z 0); run_step; try run_done; try lia).
  all: destruct (float_eq_int x 0); run_step; run_done.
Qed.

Lemma init_ok (w wtimeout j fsync : pyval) (h : heap) :
  first_violated w wtimeout j fsync = None ->
  __init__ w wtimeout j fsync h =
    (inr (mkWriteConcern (length h) (acknowledged_of w)
            (negb (dict_truthy (supplied_fields w wtimeout j fsync)))),
     h ++ [supplied_fields w wtimeout j fsync]).
Proof.
  intros Hok. generalize (init_run w wtimeout j fsync h).
  now rewrite Hok.
Qed.

Lemma init_failure (w wtimeout j fsync : pyval) (h : heap) :
  failure (__init__ w wtimeout j fsync h) = first_violated w wtimeout j fsync.
Proof.
  generalize (init_run w wtimeout j fsync h).
  destruct (first_violated w wtimeout j fsync) as [k|].
  - intros (e & cell & -> & <-). reflexivity.
  - intros ->. reflexivity.
Qed.

Lemma init_store (w wtimeout j fsync : pyval) (h : heap) :
  exists cell, snd (__init__ w wtimeout j fsync h) = h ++ [cell].
Proof.
  generalize (init_run w wtimeout j fsync h).
  destruct (first_violated w wtimeout j fsync) as [k|].
  - intros (e & cell & -> & _). now exists cell.
  - intros ->. now eexists.
Qed.

Lemma init_returns (w wtimeout j fsync : pyval) (h h1 : heap)
    (self : WriteConcern) :
  __init__ w wtimeout j fsync h = (inr self, h1) ->
  first_violated w wtimeout j fsync = None /\
  self = mkWriteConcern (length h) (acknowledged_of w)
           (negb (dict_truthy (supplied_fields w wtimeout j fsync))) /\
  h1 = h ++ [supplied_fields w wtimeout j fsync].
Proof.
  generalize (init_run w wtimeout j fsync h).
  destruct (first_violated w wtimeout j fsync) as [k|].
  - intros (e & cell & -> & _) [=].
  - intros -> [= <- <-]. auto.
Qed.

(** What is known of a live instance: the arguments it was built from
    violate no rule, and its slots hold what [init_run] says. *)
Lemma constructed_inv (h : heap) (self : WriteConcern) :
  constructed h self ->
  exists w wtimeout j fsync,
    first_violated w wtimeout j fsync = None /\
    (__document self < length h)%nat /\
    heap_get h (__document self) = supplied_fields w wtimeout j fsync /\
    __acknowledged self = acknowledged_of w /\
    __server_default self =
      negb (dict_truthy (supplied_fields w wtimeout j fsync)).
Proof.
  intros (w & wt & j & fs & h0 & h1 & Hrun & Hlt & Hcell).
  apply init_returns in Hrun as (Hok & -> & ->).
  exists w, wt, j, fs. cbn in *.
  rewrite heap_get_last in Hcell. auto.
Qed.

Lemma init_constructed (w wtimeout j fsync : pyval) (h h1 : heap)
    (self : WriteConcern) :
  __init__ w wtimeout j fsync h = (inr self, h1) -> constructed h1 self.
Proof.
  intros Hrun. exists w, wtimeout, j, fsync, h, h1.
  split; [exact Hrun|]. split; [|reflexivity].
  apply init_returns in Hrun as (_ & -> & ->). cbn.
  rewrite length_app. cbn. lia.
Qed.

(* ================================================================== *)
(** ** Concrete runs *)

Example new_no_argument :
  __init__ PNone PNone PNone PNone [] =
    (inr (mkWriteConcern 0%nat true true), [[]]).
Proof. reflexivity. Qed.

Example new_w_0 :
  __init__ (PInt 0) PNone PNone PNone [] =
    (inr (mkWriteConcern 0%nat false false), [[("w", PInt 0)]]).
Proof. reflexivity. Qed.

Example new_w_3_wtimeout_5000 :
  __init__ (PInt 3) (PInt 5000) PNone PNone [] =
    (inr (mkWriteConcern 0%nat true false),
     [[("wtimeout", PInt 5000); ("w", PInt 3)]]).
Proof. reflexivity. Qed.

Example new_j_fsync :
  __init__ PNone PNone (PBool true) (PBool true) [] =
    (inl (ConfigurationError "Can't set both j and fsync at the same time"),
     [[("j", PBool true)]]).
Proof. reflexivity. Qed.

Example new_w_0_j :
  __init__ (PInt 0) PNone (PBool true) PNone [] =
    (inl (ConfigurationError "Cannot set w to 0 and j to True"),
     [[("j", PBool true)]]).
Proof. reflexivity. Qed.

Example new_wtimeout_negative :
  __init__ PNone (PInt (-1)) PNone PNone [] =
    (inl (ValueError "wtimeout cannot be less than 0"), [[]]).
Proof. reflexivity. Qed.

Example new_w_majority :
  __init__ (PStr "majority") PNone PNone PNone [] =
    (inr (mkWriteConcern 0%nat true false), [[("w", PStr "majority")]]).
Proof. reflexivity. Qed.

Example new_w_0_fsync :
  __init__ (PInt 0) PNone PNone (PBool true) [] =
    (inr (mkWriteConcern 0%nat false false),
     [[("fsync", PBool true); ("w", PInt 0)]]).
Proof. reflexivity. Qed.

(* ================================================================== *)
(** ** Validation order *)

(** C3: validation is fail-fast in the fixed order wtimeout checks, j
    check, fsync checks with the j-and-fsync conflict, the w == 0-with-j
    conflict, w checks.  On every input the constructor fails with the kind
    of the earliest violated rule of [rules], and returns an instance only
    when no rule is violated; a failed run returns no instance, and whether
    it fails or not it leaves every object of the store as it was, adding
    one cell (the dict of the instance under construction, which nothing
    refers to after a failure). *)
Theorem init_fail_fast (w wtimeout j fsync : pyval) (h : heap) :
  failure (__init__ w wtimeout j fsync h) = first_violated w wtimeout j fsync
  /\ (returned (__init__ w wtimeout j fsync h) = None <->
      first_violated w wtimeout j fsync <> None)
  /\ exists cell, snd (__init__ w wtimeout j fsync h) = h ++ [cell].
Proof.
  split; [apply init_failure|]. split; [|apply init_store].
  rewrite <- (init_failure w wtimeout j fsync h). unfold failure, returned.
  destruct (fst (__init__ w wtimeout j fsync h)); split; congruence.
Qed.

(** Inputs that violate several rules at once, each failing with the kind
    of the earliest one. *)
Example fail_fast_wtimeout_before_j :
  failure (__init__ PNone (PInt (-1)) (PStr "yes") PNone []) = Some RangeKind.
Proof. reflexivity. Qed.

Example fail_fast_j_before_fsync :
  failure (__init__ PNone PNone (PInt 1) (PInt 1) []) = Some TypeKind.
Proof. reflexivity. Qed.

Example fail_fast_conflict_before_w :
  failure (__init__ (PInt (-1)) PNone (PBool true) (PBool true) [])
  = Some ConfigurationKind.
Proof. reflexivity. Qed.

Example fail_fast_w0_before_w_type :
  failure (__init__ (PFloat (S754_zero false)) PNone (PBool true) PNone [])
  = Some ConfigurationKind.
Proof. reflexivity. Qed.

(* ================================================================== *)
(** ** The accessors *)

Lemma document_run (self : WriteConcern) (h : heap) :
  document self h = (inr (length h), h ++ [heap_get h (__document self)]).
Proof. reflexivity. Qed.

Lemma document_returns (self : WriteConcern) (h : heap) :
  returned_dict (document self h) = Some (heap_get h (__document self)).
Proof.
  rewrite document_run. unfold returned_dict. cbn [fst snd].
  now rewrite heap_get_last.
Qed.

Lemma document_of_new (w wtimeout j fsync : pyval) (h h1 : heap)
    (self : WriteConcern) :
  __init__ w wtimeout j fsync h = (inr self, h1) ->
  returned_dict (document self h1) = Some (supplied_fields w wtimeout j fsync).
Proof.
  intros Hrun. rewrite document_returns.
  apply init_returns in Hrun as (_ & -> & ->). cbn [__document].
  now rewrite heap_get_last.
Qed.

(** Lookup in the supplied fields, key by key. *)
Lemma supplied_fields_get (w wtimeout j fsync : pyval) :
  let doc := supplied_fields w wtimeout j fsync in
  dict_get doc "wtimeout" = supplied wtimeout /\
  dict_get doc "j" = supplied j /\
  dict_get doc "fsync" = supplied fsync /\
  dict_get doc "w" = supplied w.
Proof.
  unfold supplied_fields, field, supplied.
  destruct (is_not_None wtimeout), (is_not_None j), (is_not_None fsync),
    (is_not_None w); cbn; auto.
Qed.

Lemma supplied_fields_keys (w wtimeout j fsync : pyval) :
  dict_keys (supplied_fields w wtimeout j fsync) =
  filter (fun k => match dict_get (supplied_fields w wtimeout j fsync) k with
                   | Some _ => true
                   | None => false
                   end) canonical_keys.
Proof.
  unfold supplied_fields, field, canonical_keys.
  destruct (is_not_None wtimeout), (is_not_None j), (is_not_None fsync),
    (is_not_None w); reflexivity.
Qed.

Lemma supplied_fields_NoDup (w wtimeout j fsync : pyval) :
  NoDup (dict_keys (supplied_fields w wtimeout j fsync)).
Proof.
  rewrite supplied_fields_keys. apply NoDup_filter.
  unfold canonical_keys.
  repeat constructor; cbn; intuition congruence.
Qed.

(** C4: after a successful construction, [document] returns a dict holding
    exactly the supplied fields: each canonical key maps to the value that
    was passed for it, unchanged, when one was passed, and is missing when
    none was; there is no other key; and the keys stand in insertion order
    wtimeout, j, fsync, w. *)
Theorem document_holds_supplied_fields (w wtimeout j fsync : pyval)
    (h h1 : heap) (self : WriteConcern) :
  __init__ w wtimeout j fsync h = (inr self, h1) ->
  exists doc,
    returned_dict (document self h1) = Some doc /\
    doc = supplied_fields w wtimeout j fsync /\
    dict_get doc "wtimeout" = supplied wtimeout /\
    dict_get doc "j" = supplied j /\
    dict_get doc "fsync" = supplied fsync /\
    dict_get doc "w" = supplied w /\
    dict_keys doc =
      filter (fun k => match dict_get doc k with
                       | Some _ => true
                       | None => false
                       end) canonical_keys.
Proof.
  intros Hrun. exists (supplied_fields w wtimeout j fsync).
  split; [exact (document_of_new _ _ _ _ _ _ _ Hrun)|].
  split; [reflexivity|].
  pose proof (supplied_fields_get w wtimeout j fsync) as (H1 & H2 & H3 & H4).
  repeat split; auto using supplied_fields_keys.
Qed.

Lemma document_holds_supplied_fields_example :
  __init__ (PInt 3) (PInt 5000) PNone PNone [] =
    (inr (mkWriteConcern 0%nat true false),
     [[("wtimeout", PInt 5000); ("w", PInt 3)]]) /\
  exists doc,
    returned_dict
      (document (mkWriteConcern 0%nat true false)
         [[("wtimeout", PInt 5000); ("w", PInt 3)]]) = Some doc /\
    doc = supplied_fields (PInt 3) (PInt 5000) PNone PNone /\
    dict_get doc "wtimeout" = supplied (PInt 5000) /\
    dict_get doc "j" = supplied PNone /\
    dict_get doc "fsync" = supplied PNone /\
    dict_get doc "w" = supplied (PInt 3) /\
    dict_keys doc =
      filter (fun k => match dict_get doc k with
                       | Some _ => true
                       | None => false
                       end) canonical_keys.
Proof.
  split; [reflexivity|].
  apply (document_holds_supplied_fields (PInt 3) (PInt 5000) PNone PNone []).
  reflexivity.
Defined.

(** C5: [is_server_default] is true exactly when [document] returns the
    empty dict, for every live instance; the shared default constant is
    one. *)
Theorem server_default_iff_empty_document :
  (forall h self,
      constructed h self ->
      returned (is_server_default self h) = Some true <->
      returned_dict (document self h) = Some []) /\
  (forall h, exists self h1,
      DEFAULT_WRITE_CONCERN h = (inr self, h1) /\
      constructed h1 self /\
      (returned (is_server_default self h1) = Some true <->
       returned_dict (document self h1) = Some [])).
Proof.
  assert (Hgen : forall h self,
             constructed h self ->
             returned (is_server_default self h) = Some true <->
             returned_dict (document self h) = Some []).
  { intros h self Hc.
    destruct (constructed_inv _ _ Hc) as (w & wt & j & fs & _ & _ & Hd & _ & Hs).
    rewrite document_returns, Hd. cbn. rewrite Hs.
    destruct (supplied_fields w wt j fs); cbn; split; intros;
      first [reflexivity | discriminate]. }
  split; [exact Hgen|].
  intros h. unfold DEFAULT_WRITE_CONCERN.
  pose proof (init_ok PNone PNone PNone PNone h eq_refl) as Hrun.
  eexists _, _. split; [exact Hrun|].
  pose proof (init_constructed _ _ _ _ _ _ _ Hrun) as Hc.
  split; [exact Hc|]. exact (Hgen _ _ Hc).
Qed.

Lemma server_default_iff_empty_document_example :
  constructed [[("j", PBool false)]] (mkWriteConcern 0%nat true false) /\
  (returned (is_server_default (mkWriteConcern 0%nat true false)
               [[("j", PBool false)]]) = Some true <->
   returned_dict (document (mkWriteConcern 0%nat true false)
                    [[("j", PBool false)]]) = Some []).
Proof.
  assert (Hc : constructed [[("j", PBool false)]] (mkWriteConcern 0%nat true false)).
  { exists PNone, PNone, (PBool false), PNone, [], [[("j", PBool false)]].
    split; [reflexivity|]. split; [cbn; lia | reflexivity]. }
  split; [exact Hc|].
  exact (proj1 server_default_iff_empty_document _ _ Hc).
Defined.

(** C9: constructing with no argument, and the shared default constant,
    each give an instance whose [document] is the empty dict, whose
    [acknowledged] is true and whose [is_server_default] is true. *)
Theorem default_write_concern (h : heap) :
  (exists self h1,
      __init__ PNone PNone PNone PNone h = (inr self, h1) /\
      returned_dict (document self h1) = Some [] /\
      returned (acknowledged self h1) = Some true /\
      returned (is_server_default self h1) = Some true) /\
  (exists self h1,
      DEFAULT_WRITE_CONCERN h = (inr self, h1) /\
      returned_dict (document self h1) = Some [] /\
      returned (acknowledged self h1) = Some true /\
      returned (is_server_default self h1) = Some true).
Proof.
  unfold DEFAULT_WRITE_CONCERN.
  pose proof (init_ok PNone PNone PNone PNone h eq_refl) as Hrun.
  split; eexists _, _; (split; [exact Hrun|]);
    rewrite document_returns; cbn; rewrite heap_get_last; auto.
Qed.

(** C10: booleans pass the integer checks.  [WriteConcern(wtimeout=True)]
    succeeds and records [True] under [wtimeout]; [WriteConcern(w=False)]
    succeeds, is not acknowledged and has the document [{w: False}];
    [WriteConcern(w=False, j=True)] fails with a configuration error, not a
    type error. *)
Theorem booleans_pass_integer_checks (h : heap) :
  (exists self h1,
      __init__ PNone (PBool true) PNone PNone h = (inr self, h1) /\
      returned_dict (document self h1) = Some [("wtimeout", PBool true)]) /\
  (exists self h1,
      __init__ (PBool false) PNone PNone PNone h = (inr self, h1) /\
      returned (acknowledged self h1) = Some false /\
      returned_dict (document self h1) = Some [("w", PBool false)]) /\
  failure (__init__ (PBool false) PNone (PBool true) PNone h)
    = Some ConfigurationKind.
Proof.
  split; [|split].
  - pose proof (init_ok PNone (PBool true) PNone PNone h eq_refl) as Hrun.
    eexists _, _. split; [exact Hrun|].
    rewrite document_returns. cbn. now rewrite heap_get_last.
  - pose proof (init_ok (PBool false) PNone PNone PNone h eq_refl) as Hrun.
    eexists _, _. split; [exact Hrun|].
    rewrite document_returns. cbn. now rewrite heap_get_last.
  - now rewrite init_failure.
Qed.

(* ================================================================== *)
(** ** Acknowledgement *)

Lemma no_rule_violated (w wtimeout j fsync : pyval) :
  first_violated w wtimeout j fsync = None ->
  Forall (fun r => violated r w wtimeout j fsync = false) rules.
Proof.
  unfold first_violated. intros Hnone.
  apply Forall_forall. intros r Hin.
  destruct (find (fun r => violated r w wtimeout j fsync) rules) eqn:Hfind;
    [discriminate|].
  exact (find_none _ _ Hfind r Hin).
Qed.

Lemma w_of_constructed (w wtimeout j fsync : pyval) :
  first_violated w wtimeout j fsync = None ->
  w = PNone \/ (exists b, w = PBool b) \/
  (exists z, w = PInt z /\ 0 <= z) \/ (exists s, w = PStr s).
Proof.
  intros Hok. apply no_rule_violated in Hok.
  unfold rules in Hok.
  repeat match goal with
         | H : Forall _ (_ :: _) |- _ => inversion_clear H
         end.
  destruct w as [|b|z|x|s|bs]; cbn in *; try discriminate; eauto.
  right; right; left. exists z. split; [reflexivity|lia].
Qed.

(** The integer [0] is not the only way to switch acknowledgement off:
    [w=False] passes [isinstance(w, int)] and [False > 0] is false. *)
Lemma unacknowledged_with_w_False :
  ~ unacknowledged_iff_int_zero (PBool false) PNone PNone PNone [].
Proof.
  intros Hclaim.
  destruct (Hclaim (mkWriteConcern 0%nat false false) [[("w", PBool false)]]
              eq_refl) as [Hab _].
  discriminate (Hab eq_refl).
Qed.

(** C1 (amended): after a successful construction [acknowledged] is false
    exactly when [w] was passed as the integer 0 or as the boolean [False],
    and true in every other case: [w] absent, a positive integer, [True],
    or any string. *)
Theorem unacknowledged_iff_w_zero (w wtimeout j fsync : pyval)
    (h h1 : heap) (self : WriteConcern) :
  __init__ w wtimeout j fsync h = (inr self, h1) ->
  (returned (acknowledged self h1) = Some false <->
   w = PInt 0 \/ w = PBool false) /\
  (returned (acknowledged self h1) = Some true <->
   w = PNone \/ w = PBool true \/ (exists z, w = PInt z /\ 0 < z) \/
   (exists s, w = PStr s)).
Proof.
  intros Hrun. apply init_returns in Hrun as (Hok & -> & ->).
  apply w_of_constructed in Hok.
  destruct Hok as [-> | [[b ->] | [(z & -> & Hz) | [s ->]]]]; cbn.
  - split; split; intros H; auto; try discriminate.
    destruct H; discriminate.
  - destruct b; cbn; (split; split; intros H; auto; try discriminate).
    + destruct H; discriminate.
    + destruct H as [H | [H | [(z & H & _) | (s & H)]]]; discriminate.
  - destruct (Z.ltb_spec 0 z) as [Hpos | Hnpos]; split; split; intros H;
      try discriminate; auto.
    + destruct H as [[= ->] | [=]]. lia.
    + right; right; left. eauto.
    + left. f_equal. lia.
    + destruct H as [H | [H | [(z' & [= <-] & Hz') | (s & H)]]];
        try discriminate. lia.
  - split; split; intros H; auto; try discriminate.
    + destruct H; discriminate.
    + right; right; right. eauto.
Qed.

Lemma unacknowledged_iff_w_zero_example :
  __init__ (PInt 0) PNone PNone (PBool true) [] =
    (inr (mkWriteConcern 0%nat false false),
     [[("fsync", PBool true); ("w", PInt 0)]]) /\
  (returned (acknowledged (mkWriteConcern 0%nat false false)
               [[("fsync", PBool true); ("w", PInt 0)]]) = Some false <->
   PInt 0 = PInt 0 \/ PInt 0 = PBool false) /\
  (returned (acknowledged (mkWriteConcern 0%nat false false)
               [[("fsync", PBool true); ("w", PInt 0)]]) = Some true <->
   PInt 0 = PNone \/ PInt 0 = PBool true \/
   (exists z, PInt 0 = PInt z /\ 0 < z) \/ (exists s, PInt 0 = PStr s)).
Proof.
  split; [reflexivity|].
  apply (unacknowledged_iff_w_zero (PInt 0) PNone PNone (PBool true) []).
  reflexivity.
Defined.

(* ================================================================== *)
(** ** Error kinds *)

(** A range error comes first: [wtimeout=-1] with [j=True, fsync=True]
    raises [ValueError] although [j] and [fsync] are both true. *)
Lemma conflict_after_negative_wtimeout :
  ~ configuration_iff_conflict PNone (PInt (-1)) (PBool true) (PBool true) [].
Proof.
  intros [_ Hback].
  assert (H : failure (__init__ PNone (PInt (-1)) (PBool true) (PBool true) [])
              = Some ConfigurationKind) by (apply Hback; auto).
  discriminate H.
Qed.

(** C2 (amended): the constructor fails with a configuration error exactly
    when [wtimeout], [j] and [fsync] each pass their own checks ([wtimeout]
    absent or a non-negative [int]; [j] and [fsync] absent or boolean) and
    either [j] and [fsync] are both [True], or [w == 0] and [j] is [True].
    Passing [fsync=True] with [w=0] and no [j] constructs successfully. *)
Theorem configuration_error_iff (w wtimeout j fsync : pyval) (h : heap) :
  (failure (__init__ w wtimeout j fsync h) = Some ConfigurationKind <->
   valid_wtimeout wtimeout = true /\
   valid_flag j = true /\
   valid_flag fsync = true /\
   ((j = PBool true /\ fsync = PBool true) \/
    (py_eq w (PInt 0) = true /\ j = PBool true))) /\
  failure (__init__ (PInt 0) PNone PNone (PBool true) h) = None.
Proof.
  rewrite !init_failure. split; [|reflexivity].
  unfold first_violated, rules, valid_wtimeout, valid_flag.
  cbn [find violated rule_kind option_map wtimeout_type wtimeout_range j_type
       fsync_type j_fsync_conflict w0_j_conflict w_range w_type].
  destruct wtimeout as [|[]|zt|xt|st|bst]; cbn.
  all: try (destruct (zt <? 0) eqn:?; cbn).
  all: try solve [split; [discriminate | intros (? & _); discriminate]].
  all: destruct j as [|[]|zj|xj|sj|bsj]; cbn.
  all: try solve [split; [discriminate | intros (_ & ? & _); discriminate]].
  all: destruct fsync as [|[]|zf|xf|sf|bsf]; cbn.
  all: try solve [split; [discriminate | intros (_ & _ & ? & _); discriminate]].
  all: rewrite ?andb_false_r, ?andb_true_r.
  all: destruct (py_eq w (PInt 0)) eqn:Ew0; cbn.
  all: try solve [intuition congruence].
  all: destruct (py_lt0 w); cbn; try solve [intuition congruence].
  all: destruct (is_not_None w && negb (isinstance_int w) &&
                 negb (isinstance_str w)); cbn; intuition congruence.
Qed.

(** A conflict comes first: [w=-1] with [j=True, fsync=True] raises
    [ConfigurationError] although a supplied integer is negative. *)
Lemma negative_w_after_conflict :
  ~ kind_by_shape_and_sign (PInt (-1)) PNone (PBool true) (PBool true) [].
Proof.
  intros [_ [_ Hback]].
  assert (H : failure (__init__ (PInt (-1)) PNone (PBool true) (PBool true) [])
              = Some RangeKind) by (apply Hback; reflexivity).
  discriminate H.
Qed.

(** C6 (amended): the constructor fails with a type error exactly when a
    supplied value has the wrong shape and every check before that value's
    shape check passes; it fails with a range error exactly when a supplied
    integer is negative and every check before that value's sign check
    passes; booleans count as integers.  It succeeds exactly when no value
    has the wrong shape, no integer is negative and there is no conflict. *)
Theorem type_and_range_errors (w wtimeout j fsync : pyval) (h : heap) :
  (failure (__init__ w wtimeout j fsync h) = Some TypeKind <->
   violated wtimeout_type w wtimeout j fsync = true \/
   (valid_wtimeout wtimeout = true /\
    violated j_type w wtimeout j fsync = true) \/
   (valid_wtimeout wtimeout = true /\ valid_flag j = true /\
    violated fsync_type w wtimeout j fsync = true) \/
   (reaches_w w wtimeout j fsync = true /\
    violated w_type w wtimeout j fsync = true)) /\
  (failure (__init__ w wtimeout j fsync h) = Some RangeKind <->
   violated wtimeout_range w wtimeout j fsync = true \/
   (reaches_w w wtimeout j fsync = true /\
    violated w_range w wtimeout j fsync = true)) /\
  (failure (__init__ w wtimeout j fsync h) = None <->
   wrong_shape w wtimeout j fsync = false /\
   negative_number w wtimeout j fsync = false /\
   conflict w wtimeout j fsync = false).
Proof.
  rewrite !init_failure.
  unfold first_violated, rules, reaches_w, conflict, wrong_shape,
    negative_number, valid_wtimeout, valid_flag.
  cbn [find violated rule_kind option_map wtimeout_type wtimeout_range j_type
       fsync_type j_fsync_conflict w0_j_conflict w_range w_type].
  destruct wtimeout as [|[]|zt|xt|st|bst]; cbn.
  all: try (destruct (zt <? 0) eqn:?; cbn).
  all: try solve [intuition congruence].
  all: destruct j as [|[]|zj|xj|sj|bsj]; cbn.
  all: try solve [intuition congruence].
  all: destruct fsync as [|[]|zf|xf|sf|bsf]; cbn.
  all: try solve [intuition congruence].
  all: rewrite ?andb_false_r, ?andb_true_r, ?orb_false_r; cbn.
  all: destruct w as [|[]|z|x|s|bs]; cbn.
  all: try solve [intuition congruence].
  all: try (destruct (z =? 0) eqn:Ez; cbn;
            destruct (z <? 0) eqn:Hz; cbn; try lia).
  all: try (destruct (float_eq_int x 0); cbn).
  all: intuition congruence.
Qed.

(* ================================================================== *)
(** ** Copies of the document *)

Lemma mutate_run (r : loc) (m : mutation) (h : heap) :
  mutate r m h = (inr tt, heap_update h r (fun d => apply_mutation d m)).
Proof. destruct m; reflexivity. Qed.

(** Mutating the dict at [r] writes the cell [r] and no other. *)
Lemma mutate_all_run (r : loc) (ms : list mutation) :
  forall h,
    (r < length h)%nat ->
    exists h',
      mutate_all r ms h = (inr tt, h') /\
      length h' = length h /\
      heap_get h' r = fold_left apply_mutation ms (heap_get h r) /\
      forall r', r' <> r -> heap_get h' r' = heap_get h r'.
Proof.
  induction ms as [|m ms IH]; intros h Hr.
  - exists h. cbn. auto.
  - cbn [mutate_all]. unfold bind. rewrite mutate_run.
    destruct (IH (heap_update h r (fun d => apply_mutation d m)))
      as (h' & Hrun & Hlen & Hsame & Hother).
    { now rewrite heap_update_length. }
    exists h'. split; [exact Hrun|].
    rewrite heap_update_length in Hlen. split; [exact Hlen|]. split.
    + rewrite Hsame, heap_get_update_same by exact Hr. reflexivity.
    + intros r' Hne. rewrite Hother by exact Hne.
      apply heap_get_update_other. congruence.
Qed.

(** A live instance stays live in a store that kept its private dict. *)
Lemma constructed_frame (h h' : heap) (self : WriteConcern) :
  constructed h self ->
  (length h <= length h')%nat ->
  heap_get h' (__document self) = heap_get h (__document self) ->
  constructed h' self.
Proof.
  intros (w & wt & j & fs & h0 & h1 & Hrun & Hlt & Hcell) Hlen Hkeep.
  exists w, wt, j, fs, h0, h1. split; [exact Hrun|].
  split; [lia | congruence].
Qed.

(** C8: each call of [document] returns a new dict, equal to the private
    one and distinct from it and from every copy returned before.  Whatever
    a caller then does to one copy ([ms], any sequence of item assignments,
    removals and clears) changes that copy alone: the private dict, the
    instance, the other copy, and what a later call of [document] returns
    all stay as they were. *)
Theorem document_returns_independent_copy (h : heap) (self : WriteConcern)
    (ms : list mutation) :
  constructed h self ->
  exists r1 h1 r2 h2 h3 r3 h4,
    document self h = (inr r1, h1) /\
    document self h1 = (inr r2, h2) /\
    r1 <> __document self /\ r2 <> __document self /\ r1 <> r2 /\
    heap_get h2 r1 = heap_get h (__document self) /\
    heap_get h2 r2 = heap_get h (__document self) /\
    mutate_all r1 ms h2 = (inr tt, h3) /\
    heap_get h3 r1 = fold_left apply_mutation ms (heap_get h2 r1) /\
    heap_get h3 (__document self) = heap_get h (__document self) /\
    heap_get h3 r2 = heap_get h2 r2 /\
    constructed h3 self /\
    document self h3 = (inr r3, h4) /\
    heap_get h4 r3 = heap_get h (__document self) /\
    heap_get h4 r2 = heap_get h2 r2.
Proof.
  intros Hc.
  assert (Hlt : (__document self < length h)%nat).
  { destruct Hc as (? & ? & ? & ? & ? & ? & _ & Hlt & _). exact Hlt. }
  set (d := heap_get h (__document self)).
  set (h1 := h ++ [d]).
  assert (Hd1 : heap_get h1 (__document self) = d)
    by (unfold h1; now rewrite heap_get_old).
  set (h2 := h1 ++ [d]).
  assert (Hlen1 : length h1 = S (length h))
    by (unfold h1; rewrite length_app; cbn; lia).
  assert (Hlen2 : length h2 = S (S (length h)))
    by (unfold h2; rewrite length_app; cbn; lia).
  assert (Hd2 : heap_get h2 (__document self) = d)
    by (unfold h2; rewrite heap_get_old by lia; exact Hd1).
  assert (Hr1 : heap_get h2 (length h) = d).
  { unfold h2. rewrite heap_get_old by lia. unfold h1. apply heap_get_last. }
  assert (Hr2 : heap_get h2 (length h1) = d) by apply heap_get_last.
  destruct (mutate_all_run (length h) ms h2) as (h3 & Hmut & Hlen3 & Hsame & Hother);
    [lia|].
  exists (length h), h1, (length h1), h2, h3, (length h3),
    (h3 ++ [heap_get h3 (__document self)]).
  assert (Hd3 : heap_get h3 (__document self) = d)
    by (rewrite Hother by lia; exact Hd2).
  assert (H23 : heap_get h3 (length h1) = heap_get h2 (length h1))
    by (apply Hother; lia).
  repeat split; auto; try lia.
  - rewrite document_run, Hd1. reflexivity.
  - apply (constructed_frame h); [exact Hc | lia | exact Hd3].
  - rewrite heap_get_last. exact Hd3.
  - rewrite heap_get_old by lia. exact H23.
Qed.

Lemma document_returns_independent_copy_example :
  constructed [[("w", PStr "majority")]] (mkWriteConcern 0%nat true false) /\
  exists r1 h1 r2 h2 h3 r3 h4,
    document (mkWriteConcern 0%nat true false) [[("w", PStr "majority")]]
      = (inr r1, h1) /\
    document (mkWriteConcern 0%nat true false) h1 = (inr r2, h2) /\
    r1 <> 0%nat /\ r2 <> 0%nat /\ r1 <> r2 /\
    heap_get h2 r1 = [("w", PStr "majority")] /\
    heap_get h2 r2 = [("w", PStr "majority")] /\
    mutate_all r1 [SetItem "w" (PInt 0); SetItem "j" (PBool true)] h2
      = (inr tt, h3) /\
    heap_get h3 r1 =
      fold_left apply_mutation
        [SetItem "w" (PInt 0); SetItem "j" (PBool true)] (heap_get h2 r1) /\
    heap_get h3 0%nat = [("w", PStr "majority")] /\
    heap_get h3 r2 = heap_get h2 r2 /\
    constructed h3 (mkWriteConcern 0%nat true false) /\
    document (mkWriteConcern 0%nat true false) h3 = (inr r3, h4) /\
    heap_get h4 r3 = [("w", PStr "majority")] /\
    heap_get h4 r2 = heap_get h2 r2.
Proof.
  assert (Hc : constructed [[("w", PStr "majority")]]
                 (mkWriteConcern 0%nat true false)).
  { exists (PStr "majority"), PNone, PNone, PNone, [],
      [[("w", PStr "majority")]].
    split; [reflexivity|]. split; [cbn; lia | reflexivity]. }
  split; [exact Hc|].
  exact (document_returns_independent_copy _ _
           [SetItem "w" (PInt 0); SetItem "j" (PBool true)] Hc).
Defined.

(* ================================================================== *)
(** ** Equality of dicts *)

Section PyEq.

Variables x y z : pyval.
Hypothesis Hx : doc_value x = true.
Hypothesis Hy : doc_value y = true.
Hypothesis Hz : doc_value z = true.

Lemma py_eq_refl : py_eq x x = true.
Proof.
  destruct x as [|[]| | | |]; cbn in *; try discriminate; auto.
  - apply Z.eqb_refl.
  - apply String.eqb_refl.
Qed.

Lemma py_eq_sym : py_eq x y = py_eq y x.
Proof.
  destruct x as [|[]| | | |], y as [|[]| | | |]; cbn in *;
    try discriminate; auto using Z.eqb_sym, String.eqb_sym.
Qed.

Lemma py_eq_trans : py_eq x y = true -> py_eq y z = true -> py_eq x z = true.
Proof.
  destruct x as [|[]| | | |], y as [|[]| | | |], z as [|[]| | | |];
    cbn [doc_value isinstance_int isinstance_str orb] in *;
    try discriminate; cbn [py_eq int_value];
    rewrite ?Z.eqb_eq, ?String.eqb_eq; intros; try congruence; lia.
Qed.

End PyEq.

Lemma dict_get_In (d : dict) (k : string) (v : pyval) :
  dict_get d k = Some v -> In (k, v) d.
Proof.
  induction d as [|[k' v'] d IH]; cbn; [discriminate|].
  destruct (String.eqb_spec k k') as [->|Hne].
  - intros [= ->]. auto.
  - auto.
Qed.

Lemma dict_get_None (d : dict) (k : string) :
  dict_get d k = None <-> ~ In k (dict_keys d).
Proof.
  induction d as [|[k' v'] d IH]; cbn; [tauto|].
  destruct (String.eqb_spec k k') as [->|Hne].
  - split; [discriminate | tauto].
  - rewrite IH. split; [intros H [E|I]; [congruence | tauto] | tauto].
Qed.

Lemma In_dict_get (d : dict) (k : string) (v : pyval) :
  NoDup (dict_keys d) -> In (k, v) d -> dict_get d k = Some v.
Proof.
  induction d as [|[k' v'] d IH]; cbn; [tauto|].
  intros Hnd [[= -> ->] | Hin].
  - now rewrite String.eqb_refl.
  - inversion_clear Hnd as [|? ? Hnotin Hnd'].
    destruct (String.eqb_spec k k') as [->|Hne].
    + exfalso. apply Hnotin. change k' with (fst (k', v)).
      now apply in_map.
    + auto.
Qed.

Lemma dict_get_value (d : dict) (k : string) (v : pyval) :
  Forall (fun kv => doc_value (snd kv) = true) d ->
  dict_get d k = Some v -> doc_value v = true.
Proof.
  intros Hall Hget. apply dict_get_In in Hget.
  rewrite Forall_forall in Hall. exact (Hall _ Hget).
Qed.

(** [==] on dicts without repeated keys is equality of mappings. *)
Lemma dict_eqb_same_mapping (a b : dict) :
  NoDup (dict_keys a) -> NoDup (dict_keys b) ->
  dict_eqb a b = true <-> same_mapping a b.
Proof.
  intros Ha Hb. unfold dict_eqb, same_mapping.
  rewrite andb_true_iff, Nat.eqb_eq, forallb_forall. split.
  - intros [Hlen Hall] k.
    destruct (dict_get a k) as [x|] eqn:Hak.
    + apply dict_get_In in Hak. specialize (Hall _ Hak). cbn in Hall.
      destruct (dict_get b k); [exact Hall | discriminate].
    + destruct (dict_get b k) as [y|] eqn:Hbk; [|exact I].
      apply dict_get_None in Hak. apply Hak.
      assert (Hincl : incl (dict_keys a) (dict_keys b)).
      { intros k' Hin. unfold dict_keys in Hin.
        apply in_map_iff in Hin as ([k'' v] & <- & Hin).
        specialize (Hall _ Hin). cbn in *.
        destruct (dict_get b k'') eqn:E; [|discriminate].
        destruct (in_dec string_dec k'' (dict_keys b)) as [I|N]; [exact I|].
        apply dict_get_None in N. congruence. }
      assert (Hback : incl (dict_keys b) (dict_keys a)).
      { apply NoDup_length_incl; [exact Ha | | exact Hincl].
        unfold dict_keys. rewrite !length_map. lia. }
      apply Hback.
      destruct (in_dec string_dec k (dict_keys b)) as [I|N]; [exact I|].
      apply dict_get_None in N. congruence.
  - intros Hsame.
    assert (Hab : incl (dict_keys a) (dict_keys b)).
    { intros k Hin. specialize (Hsame k).
      destruct (in_dec string_dec k (dict_keys b)) as [I|N]; [exact I|].
      apply dict_get_None in N. rewrite N in Hsame.
      destruct (dict_get a k) eqn:E; [contradiction|].
      apply dict_get_None in E. contradiction. }
    assert (Hba : incl (dict_keys b) (dict_keys a)).
    { intros k Hin. specialize (Hsame k).
      destruct (in_dec string_dec k (dict_keys a)) as [I|N]; [exact I|].
      apply dict_get_None in N. rewrite N in Hsame.
      destruct (dict_get b k) eqn:E; [contradiction|].
      apply dict_get_None in E. contradiction. }
    split.
    + pose proof (NoDup_incl_length Ha Hab) as L1.
      pose proof (NoDup_incl_length Hb Hba) as L2.
      unfold dict_keys in L1, L2. rewrite !length_map in L1, L2. lia.
    + intros [k x] Hin. cbn.
      specialize (Hsame k). rewrite (In_dict_get _ _ _ Ha Hin) in Hsame.
      destruct (dict_get b k); [exact Hsame | contradiction].
Qed.

Section SameMapping.

Variables a b c : dict.
Hypothesis Ha : well_formed a.
Hypothesis Hb : well_formed b.
Hypothesis Hc : well_formed c.

Lemma same_mapping_refl : same_mapping a a.
Proof.
  intros k. destruct (dict_get a k) as [x|] eqn:E; [|exact I].
  apply py_eq_refl. exact (dict_get_value _ _ _ (proj2 Ha) E).
Qed.

Lemma same_mapping_sym : same_mapping a b -> same_mapping b a.
Proof.
  intros H k. specialize (H k).
  destruct (dict_get a k) as [x|] eqn:Ea, (dict_get b k) as [y|] eqn:Eb;
    auto.
  rewrite py_eq_sym; [exact H | |].
  - exact (dict_get_value _ _ _ (proj2 Hb) Eb).
  - exact (dict_get_value _ _ _ (proj2 Ha) Ea).
Qed.

Lemma same_mapping_trans :
  same_mapping a b -> same_mapping b c -> same_mapping a c.
Proof.
  intros H1 H2 k. specialize (H1 k). specialize (H2 k).
  destruct (dict_get a k) as [x|] eqn:Ea, (dict_get b k) as [y|] eqn:Eb,
    (dict_get c k) as [z|] eqn:Ec; auto; try contradiction.
  apply (py_eq_trans x y z); auto.
  - exact (dict_get_value _ _ _ (proj2 Ha) Ea).
  - exact (dict_get_value _ _ _ (proj2 Hb) Eb).
  - exact (dict_get_value _ _ _ (proj2 Hc) Ec).
Qed.

End SameMapping.

Lemma dict_eqb_refl (a : dict) : well_formed a -> dict_eqb a a = true.
Proof.
  intros Ha. apply dict_eqb_same_mapping; try apply Ha.
  now apply same_mapping_refl.
Qed.

Lemma dict_eqb_sym (a b : dict) :
  well_formed a -> well_formed b -> dict_eqb a b = dict_eqb b a.
Proof.
  intros Ha Hb. apply eq_true_iff_eq.
  rewrite !dict_eqb_same_mapping by apply Ha || apply Hb.
  split; apply same_mapping_sym; assumption.
Qed.

Lemma dict_eqb_trans (a b c : dict) :
  well_formed a -> well_formed b -> well_formed c ->
  dict_eqb a b = true -> dict_eqb b c = true -> dict_eqb a c = true.
Proof.
  intros Ha Hb Hc.
  rewrite !dict_eqb_same_mapping by apply Ha || apply Hb || apply Hc.
  now apply same_mapping_trans.
Qed.

(** The private dict of a live instance is well formed. *)
Lemma supplied_fields_well_formed (w wtimeout j fsync : pyval) :
  first_violated w wtimeout j fsync = None ->
  well_formed (supplied_fields w wtimeout j fsync).
Proof.
  intros Hok. split; [apply supplied_fields_NoDup|].
  apply no_rule_violated in Hok. unfold rules in Hok.
  repeat match goal with
         | H : Forall _ (_ :: _) |- _ => inversion_clear H
         end.
  unfold supplied_fields, field.
  destruct wtimeout as [| | | | |], j as [| | | | |], fsync as [| | | | |];
    cbn in *; try discriminate;
    destruct w as [| | | | |]; cbn in *; try discriminate;
    repeat constructor.
Qed.

Lemma constructed_well_formed (h : heap) (self : WriteConcern) :
  constructed h self -> well_formed (heap_get h (__document self)).
Proof.
  intros Hc.
  destruct (constructed_inv _ _ Hc) as (w & wt & j & fs & Hok & _ & -> & _).
  now apply supplied_fields_well_formed.
Qed.

(* ================================================================== *)
(** ** Equality of instances *)

Lemma eq_run (h : heap) (a b : WriteConcern) :
  (__document a < length h)%nat ->
  answer (__eq__ a (OWriteConcern b) h) =
  Some (dict_eqb (heap_get h (__document a)) (heap_get h (__document b))).
Proof.
  intros Hlt. unfold __eq__, bind. rewrite document_run.
  unfold dict_eq, ret, answer. cbn [fst].
  now rewrite heap_get_last, heap_get_old.
Qed.

Lemma ne_run (h : heap) (a b : WriteConcern) :
  (__document a < length h)%nat ->
  answer (__ne__ a (OWriteConcern b) h) =
  Some (negb (dict_eqb (heap_get h (__document a))
                (heap_get h (__document b)))).
Proof.
  intros Hlt. unfold __ne__, bind. rewrite document_run.
  unfold dict_ne, ret, answer. cbn [fst].
  now rewrite heap_get_last, heap_get_old.
Qed.

Lemma constructed_live (h : heap) (self : WriteConcern) :
  constructed h self -> (__document self < length h)%nat.
Proof. intros (? & ? & ? & ? & ? & ? & _ & Hlt & _). exact Hlt. Qed.

(** C7: on live instances [a == b] is the equality of the dicts their
    [document] returns, which is equality as mappings (the same keys with
    equal values, whatever the insertion order); it is reflexive, symmetric
    and transitive, and [a != b] is its negation. *)
Theorem eq_is_document_equality (h : heap) (a b c : WriteConcern) :
  constructed h a -> constructed h b -> constructed h c ->
  exists da db,
    returned_dict (document a h) = Some da /\
    returned_dict (document b h) = Some db /\
    answer (__eq__ a (OWriteConcern b) h) = Some (dict_eqb da db) /\
    (dict_eqb da db = true <-> same_mapping da db) /\
    answer (__eq__ a (OWriteConcern a) h) = Some true /\
    answer (__eq__ b (OWriteConcern a) h)
      = answer (__eq__ a (OWriteConcern b) h) /\
    (answer (__eq__ a (OWriteConcern b) h) = Some true ->
     answer (__eq__ b (OWriteConcern c) h) = Some true ->
     answer (__eq__ a (OWriteConcern c) h) = Some true) /\
    answer (__ne__ a (OWriteConcern b) h) = Some (negb (dict_eqb da db)).
Proof.
  intros Ha Hb Hc.
  pose proof (constructed_live _ _ Ha) as La.
  pose proof (constructed_live _ _ Hb) as Lb.
  pose proof (constructed_well_formed _ _ Ha) as Wa.
  pose proof (constructed_well_formed _ _ Hb) as Wb.
  pose proof (constructed_well_formed _ _ Hc) as Wc.
  exists (heap_get h (__document a)), (heap_get h (__document b)).
  rewrite !document_returns, !eq_run, ne_run by assumption.
  repeat split; try reflexivity.
  - apply dict_eqb_same_mapping; [apply Wa | apply Wb].
  - apply dict_eqb_same_mapping; [apply Wa | apply Wb].
  - f_equal. now apply dict_eqb_refl.
  - f_equal. now apply dict_eqb_sym.
  - intros [= Hab] [= Hbc]. f_equal.
    now apply (dict_eqb_trans _ (heap_get h (__document b))).
Qed.

Lemma eq_is_document_equality_example :
  let h := [[("w", PInt 1)]; [("w", PBool true)]; [("w", PInt 2)]] in
  let a := mkWriteConcern 0%nat true false in
  let b := mkWriteConcern 1%nat true false in
  let c := mkWriteConcern 2%nat true false in
  (constructed h a /\ constructed h b /\ constructed h c) /\
  exists da db,
    returned_dict (document a h) = Some da /\
    returned_dict (document b h) = Some db /\
    answer (__eq__ a (OWriteConcern b) h) = Some (dict_eqb da db) /\
    (dict_eqb da db = true <-> same_mapping da db) /\
    answer (__eq__ a (OWriteConcern a) h) = Some true /\
    answer (__eq__ b (OWriteConcern a) h)
      = answer (__eq__ a (OWriteConcern b) h) /\
    (answer (__eq__ a (OWriteConcern b) h) = Some true ->
     answer (__eq__ b (OWriteConcern c) h) = Some true ->
     answer (__eq__ a (OWriteConcern c) h) = Some true) /\
    answer (__ne__ a (OWriteConcern b) h) = Some (negb (dict_eqb da db)).
Proof.
  intros h a b c.
  assert (Ha : constructed h a).
  { exists (PInt 1), PNone, PNone, PNone, [], [[("w", PInt 1)]].
    split; [reflexivity|]. split; [cbn; lia | reflexivity]. }
  assert (Hb : constructed h b).
  { exists (PBool true), PNone, PNone, PNone, [[("w", PInt 1)]],
      [[("w", PInt 1)]; [("w", PBool true)]].
    split; [reflexivity|]. split; [cbn; lia | reflexivity]. }
  assert (Hc : constructed h c).
  { exists (PInt 2), PNone, PNone, PNone,
      [[("w", PInt 1)]; [("w", PBool true)]], h.
    split; [reflexivity|]. split; [cbn; lia | reflexivity]. }
  split; [auto|].
  exact (eq_is_document_equality h a b c Ha Hb Hc).
Defined.

(** Equality follows Python's [==] on the values: the documents [{w: 1}]
    and [{w: True}] are equal, and so are the instances. *)
Example eq_w_1_w_True :
  answer (__eq__ (mkWriteConcern 0%nat true false)
            (OWriteConcern (mkWriteConcern 1%nat true false))
            [[("w", PInt 1)]; [("w", PBool true)]]) = Some true.
Proof. reflexivity. Qed.

Example ne_w_1_w_2 :
  answer (__ne__ (mkWriteConcern 0%nat true false)
            (OWriteConcern (mkWriteConcern 1%nat true false))
            [[("w", PInt 1)]; [("w", PInt 2)]]) = Some true.
Proof. reflexivity. Qed.

(** With an operand that is not a [WriteConcern] both methods return
    [NotImplemented]. *)
Example eq_other_type (self : WriteConcern) (v : pyval) (h : heap) :
  __eq__ self (OValue v) h = (inr NotImplemented, h) /\
  __ne__ self (OValue v) h = (inr NotImplemented, h).
Proof. split; reflexivity. Qed.

(* ================================================================== *)
(** ** The exception raised *)

(** X1: the constructor raises the exception, message included, of the
    earliest violated rule, and raises nothing when no rule is violated. *)
Theorem init_raises (w wtimeout j fsync : pyval) (h : heap) :
  raised (__init__ w wtimeout j fsync h) = first_error w wtimeout j fsync.
Proof.
  unfold raised, first_error, rule_errors, __init__.
  destruct wtimeout as [|[]|zt|xt|st|bst]; run_step; try reflexivity.
  all: try (destruct (Z.ltb_spec zt 0) as [Hzt|Hzt]; run_step;
            [ reflexivity | ]).
  all: destruct j as [|[]|zj|xj|sj|bsj]; run_step; try reflexivity.
  all: destruct fsync as [|[]|zf|xf|sf|bsf]; run_step; try reflexivity.
  all: destruct w as [|[]|z|x|s|bs]; run_step; try reflexivity.
  all: try (destruct (Z.eqb_spec z 0); run_step; try reflexivity).
  all: try (destruct (Z.ltb_spec z 0); run_step; try reflexivity; try lia).
  all: destruct (float_eq_int x 0); run_step; reflexivity.
Qed.

(* ================================================================== *)
(** ** What a live instance holds *)

Lemma rules_hold (w wtimeout j fsync : pyval) :
  first_violated w wtimeout j fsync = None ->
  valid_wtimeout wtimeout = true /\
  valid_flag j = true /\
  valid_flag fsync = true /\
  conflict w wtimeout j fsync = false /\
  py_lt0 w = false /\
  (is_not_None w = true -> doc_value w = true).
Proof.
  intros Hok. apply no_rule_violated in Hok. unfold rules in Hok.
  repeat match goal with
         | H : Forall _ (_ :: _) |- _ => inversion_clear H
         end.
  unfold valid_wtimeout, valid_flag, conflict, doc_value. cbn in *.
  destruct wtimeout as [| | | | |]; cbn in *; try discriminate.
  all: destruct j as [| | | | |]; cbn in *; try discriminate.
  all: destruct fsync as [| | | | |]; cbn in *; try discriminate.
  all: destruct w as [| | | | |]; cbn in *; try discriminate.
  all: repeat match goal with
         | H : _ = false |- _ => rewrite H; clear H
         end; cbn; auto 10.
Qed.

(** X2: whatever a live instance was built from, its document keeps the
    constraints the constructor checked: only canonical keys, each once;
    [wtimeout] a non-negative [int]; [j] and [fsync] booleans, never both
    [True]; [w] a non-negative [int] or a [str], and never equal to 0 while
    [j] is [True]. *)
Theorem constructed_document_invariants (h : heap) (self : WriteConcern) :
  constructed h self ->
  exists doc,
    returned_dict (document self h) = Some doc /\
    NoDup (dict_keys doc) /\
    incl (dict_keys doc) canonical_keys /\
    (forall v, dict_get doc "wtimeout" = Some v ->
               isinstance_int v = true /\ py_lt0 v = false) /\
    (forall v, dict_get doc "j" = Some v -> isinstance_bool v = true) /\
    (forall v, dict_get doc "fsync" = Some v -> isinstance_bool v = true) /\
    (forall v, dict_get doc "w" = Some v ->
               (isinstance_int v = true /\ py_lt0 v = false) \/
               isinstance_str v = true) /\
    ~ (dict_get doc "j" = Some (PBool true) /\
       dict_get doc "fsync" = Some (PBool true)) /\
    ~ (dict_get doc "j" = Some (PBool true) /\
       exists v, dict_get doc "w" = Some v /\ py_eq v (PInt 0) = true).
Proof.
  intros Hc.
  destruct (constructed_inv _ _ Hc) as (w & wt & j & fs & Hok & _ & Hd & _).
  exists (supplied_fields w wt j fs).
  rewrite document_returns, Hd. split; [reflexivity|].
  split; [apply supplied_fields_NoDup|].
  split; [rewrite supplied_fields_keys; apply incl_filter|].
  destruct (supplied_fields_get w wt j fs) as (-> & -> & -> & ->).
  destruct (rules_hold _ _ _ _ Hok) as (Hwt & Hj & Hf & Hcf & Hw & Hwv).
  unfold supplied, valid_wtimeout, valid_flag, conflict, doc_value in *.
  cbn [violated j_fsync_conflict w0_j_conflict] in Hcf.
  apply orb_false_iff in Hcf as [Hc1 Hc2].
  split; [|split; [|split; [|split; [|split]]]].
  - intros v Hv. destruct wt as [| |z| | |]; cbn in *; inversion Hv; subst;
      cbn in *; try discriminate; auto;
      (split; [reflexivity | now apply negb_true_iff]).
  - intros v Hv. destruct j; cbn in *; inversion Hv; subst; cbn in *;
      try discriminate; auto.
  - intros v Hv. destruct fs; cbn in *; inversion Hv; subst; cbn in *;
      try discriminate; auto.
  - intros v Hv. destruct w; cbn in *; inversion Hv; subst; cbn in *;
      try discriminate; auto; specialize (Hwv eq_refl); discriminate.
  - intros [Hjt Hft]. destruct j as [|[]| | | |]; try discriminate.
    destruct fs as [|[]| | | |]; discriminate.
  - intros [Hjt (v & Hv & Hv0)]. destruct j as [|[]| | | |]; try discriminate.
    destruct w; cbn in *; inversion Hv; subst; cbn in *;
      rewrite ?andb_true_r in Hc2; congruence.
Qed.

(* ================================================================== *)
(** ** Nothing changes an instance *)

Lemma unchanged_grow (h l : heap) (a : WriteConcern) :
  constructed h a -> unchanged h (h ++ l) a.
Proof.
  intros Hc. pose proof (constructed_live _ _ Hc) as Hlt.
  assert (Hkeep : heap_get (h ++ l) (__document a) = heap_get h (__document a))
    by now apply heap_get_old.
  split; [|exact Hkeep].
  apply (constructed_frame h); [exact Hc | | exact Hkeep].
  rewrite length_app. lia.
Qed.

Lemma eq_store (o : WriteConcern) (x : pyobj) (h : heap) :
  exists l, snd (__eq__ o x h) = h ++ l /\ snd (__ne__ o x h) = h ++ l.
Proof.
  destruct x as [b|v]; cbn.
  - eexists. split; reflexivity.
  - exists []. now rewrite app_nil_r.
Qed.

(** X3: no operation of the class changes an instance that exists: building
    another instance (whether that succeeds or raises), reading
    [document], comparing with [==] or [!=], printing, and reading the two
    flags all leave a live instance live with the same private dict; and
    the dict of a new instance or of a returned copy is never the private
    dict of an existing one. *)
Theorem instances_are_immutable (h : heap) (a : WriteConcern) :
  constructed h a ->
  (forall w wtimeout j fsync,
      unchanged h (snd (__init__ w wtimeout j fsync h)) a /\
      forall b, returned (__init__ w wtimeout j fsync h) = Some b ->
                __document b <> __document a) /\
  (forall o,
      unchanged h (snd (document o h)) a /\
      forall r, returned (document o h) = Some r -> r <> __document a) /\
  (forall o x,
      unchanged h (snd (__eq__ o x h)) a /\
      unchanged h (snd (__ne__ o x h)) a) /\
  (forall o str_float str_bytes,
      snd (__repr__ str_float str_bytes o h) = h /\
      snd (acknowledged o h) = h /\
      snd (is_server_default o h) = h).
Proof.
  intros Hc. pose proof (constructed_live _ _ Hc) as Hlt.
  split; [|split; [|split]].
  - intros w wt j fs. split.
    + destruct (init_store w wt j fs h) as (cell & ->).
      now apply unchanged_grow.
    + intros b Hb. unfold returned in Hb.
      destruct (__init__ w wt j fs h) as [[e|b'] h1] eqn:Hrun;
        cbn in Hb; [discriminate|]. injection Hb as ->.
      apply init_returns in Hrun as (_ & -> & _). cbn. lia.
  - intros o. rewrite document_run. cbn. split.
    + now apply unchanged_grow.
    + intros r [= <-]. lia.
  - intros o x. destruct (eq_store o x h) as (l & -> & ->).
    split; now apply unchanged_grow.
  - intros o sf sb. repeat split.
Qed.

Lemma instances_are_immutable_example :
  let h := [[("j", PBool true); ("w", PInt 2)]] in
  let a := mkWriteConcern 0%nat true false in
  constructed h a /\
  (forall w wtimeout j fsync,
      unchanged h (snd (__init__ w wtimeout j fsync h)) a /\
      forall b, returned (__init__ w wtimeout j fsync h) = Some b ->
                __document b <> __document a) /\
  (forall o,
      unchanged h (snd (document o h)) a /\
      forall r, returned (document o h) = Some r -> r <> __document a) /\
  (forall o x,
      unchanged h (snd (__eq__ o x h)) a /\
      unchanged h (snd (__ne__ o x h)) a) /\
  (forall o str_float str_bytes,
      snd (__repr__ str_float str_bytes o h) = h /\
      snd (acknowledged o h) = h /\
      snd (is_server_default o h) = h).
Proof.
  intros h a.
  assert (Hc : constructed h a).
  { exists (PInt 2), PNone, (PBool true), PNone, [], h.
    split; [reflexivity|]. split; [cbn; lia | reflexivity]. }
  split; [exact Hc|].
  exact (instances_are_immutable h a Hc).
Defined.

Lemma constructed_document_invariants_example :
  let h := [[("wtimeout", PInt 100); ("j", PBool true); ("w", PInt 2)]] in
  let self := mkWriteConcern 0%nat true false in
  constructed h self /\
  exists doc,
    returned_dict (document self h) = Some doc /\
    NoDup (dict_keys doc) /\
    incl (dict_keys doc) canonical_keys /\
    (forall v, dict_get doc "wtimeout" = Some v ->
               isinstance_int v = true /\ py_lt0 v = false) /\
    (forall v, dict_get doc "j" = Some v -> isinstance_bool v = true) /\
    (forall v, dict_get doc "fsync" = Some v -> isinstance_bool v = true) /\
    (forall v, dict_get doc "w" = Some v ->
               (isinstance_int v = true /\ py_lt0 v = false) \/
               isinstance_str v = true) /\
    ~ (dict_get doc "j" = Some (PBool true) /\
       dict_get doc "fsync" = Some (PBool true)) /\
    ~ (dict_get doc "j" = Some (PBool true) /\
       exists v, dict_get doc "w" = Some v /\ py_eq v (PInt 0) = true).
Proof.
  intros h self.
  assert (Hc : constructed h self).
  { exists (PInt 2), (PInt 100), (PBool true), PNone, [], h.
    split; [reflexivity|]. split; [cbn; lia | reflexivity]. }
  split; [exact Hc|].
  exact (constructed_document_invariants h self Hc).
Defined.

(* ================================================================== *)
(** ** The flags, read off the document *)

Lemma keyword_supplied (v : pyval) :
  match supplied v with Some u => u | None => PNone end = v.
Proof. now destruct v. Qed.

(** X4: both flags of a live instance can be read off its document:
    [acknowledged] is false exactly when the document has an entry [w] that
    equals 0, and [is_server_default] is true exactly when the document
    has no entry at all; so a server-default instance is acknowledged. *)
Theorem flags_from_document (h : heap) (self : WriteConcern) :
  constructed h self ->
  exists doc,
    returned_dict (document self h) = Some doc /\
    returned (acknowledged self h) =
      Some (match dict_get doc "w" with
            | Some v => negb (py_eq v (PInt 0))
            | None => true
            end) /\
    returned (is_server_default self h) =
      Some (Nat.eqb (length doc) 0) /\
    (returned (is_server_default self h) = Some true ->
     returned (acknowledged self h) = Some true).
Proof.
  intros Hc.
  destruct (constructed_inv _ _ Hc)
    as (w & wt & j & fs & Hok & _ & Hd & Hack & Hsd).
  exists (supplied_fields w wt j fs).
  rewrite document_returns, Hd. split; [reflexivity|].
  destruct (supplied_fields_get w wt j fs) as (_ & _ & _ & Hw).
  assert (Ha : __acknowledged self =
               match dict_get (supplied_fields w wt j fs) "w" with
               | Some v => negb (py_eq v (PInt 0))
               | None => true
               end).
  { rewrite Hw, Hack. apply w_of_constructed in Hok.
    destruct Hok as [-> | [[[] ->] | [(z & -> & Hz) | [s ->]]]]; cbn; auto.
    destruct (Z.ltb_spec 0 z), (Z.eqb_spec z 0); cbn; auto; lia. }
  assert (Hs : __server_default self =
               Nat.eqb (length (supplied_fields w wt j fs)) 0).
  { rewrite Hsd. now destruct (supplied_fields w wt j fs). }
  cbn. rewrite <- Ha, <- Hs. repeat split.
  intros [= Hdef]. f_equal. rewrite Ha.
  rewrite Hs in Hdef. apply Nat.eqb_eq in Hdef.
  destruct (supplied_fields w wt j fs); [reflexivity | discriminate].
Qed.

Lemma flags_from_document_example :
  let h := [[("w", PBool false)]] in
  let self := mkWriteConcern 0%nat false false in
  constructed h self /\
  exists doc,
    returned_dict (document self h) = Some doc /\
    returned (acknowledged self h) =
      Some (match dict_get doc "w" with
            | Some v => negb (py_eq v (PInt 0))
            | None => true
            end) /\
    returned (is_server_default self h) =
      Some (Nat.eqb (length doc) 0) /\
    (returned (is_server_default self h) = Some true ->
     returned (acknowledged self h) = Some true).
Proof.
  intros h self.
  assert (Hc : constructed h self).
  { exists (PBool false), PNone, PNone, PNone, [], h.
    split; [reflexivity|]. split; [cbn; lia | reflexivity]. }
  split; [exact Hc|].
  exact (flags_from_document h self Hc).
Defined.

(* ================================================================== *)
(** ** Rebuilding an instance from its document *)

Lemma keyword_supplied_fields (w wtimeout j fsync : pyval) :
  let doc := supplied_fields w wtimeout j fsync in
  keyword doc "w" = w /\ keyword doc "wtimeout" = wtimeout /\
  keyword doc "j" = j /\ keyword doc "fsync" = fsync.
Proof.
  cbn. unfold keyword.
  destruct (supplied_fields_get w wtimeout j fsync) as (-> & -> & -> & ->).
  repeat split; apply keyword_supplied.
Qed.

(** X5: the document of a live instance, passed back to the constructor as
    keyword arguments, always constructs, in any store, and gives an
    instance with the same document (same items, same order) and the same
    two flags. *)
Theorem document_round_trip (h : heap) (self : WriteConcern) :
  constructed h self ->
  exists doc,
    returned_dict (document self h) = Some doc /\
    forall h', exists self' h1,
      __init__ (keyword doc "w") (keyword doc "wtimeout")
               (keyword doc "j") (keyword doc "fsync") h' = (inr self', h1) /\
      returned_dict (document self' h1) = Some doc /\
      returned (acknowledged self' h1) = returned (acknowledged self h) /\
      returned (is_server_default self' h1)
        = returned (is_server_default self h).
Proof.
  intros Hc.
  destruct (constructed_inv _ _ Hc)
    as (w & wt & j & fs & Hok & _ & Hd & Hack & Hsd).
  exists (supplied_fields w wt j fs).
  rewrite document_returns, Hd. split; [reflexivity|].
  intros h'.
  destruct (keyword_supplied_fields w wt j fs) as (-> & -> & -> & ->).
  eexists _, _. split; [exact (init_ok w wt j fs h' Hok)|].
  rewrite document_returns. cbn. rewrite heap_get_last, Hack, Hsd.
  auto.
Qed.

Lemma document_round_trip_example :
  let h := [[("wtimeout", PInt 100); ("w", PStr "majority")]] in
  let self := mkWriteConcern 0%nat true false in
  constructed h self /\
  exists doc,
    returned_dict (document self h) = Some doc /\
    forall h', exists self' h1,
      __init__ (keyword doc "w") (keyword doc "wtimeout")
               (keyword doc "j") (keyword doc "fsync") h' = (inr self', h1) /\
      returned_dict (document self' h1) = Some doc /\
      returned (acknowledged self' h1) = returned (acknowledged self h) /\
      returned (is_server_default self' h1)
        = returned (is_server_default self h).
Proof.
  intros h self.
  assert (Hc : constructed h self).
  { exists (PStr "majority"), (PInt 100), PNone, PNone, [], h.
    split; [reflexivity|]. split; [cbn; lia | reflexivity]. }
  split; [exact Hc|].
  exact (document_round_trip h self Hc).
Defined.

(* ================================================================== *)
(** ** Equality, argument by argument *)

Lemma supplied_fields_other_key (w wtimeout j fsync : pyval) (k : string) :
  ~ In k canonical_keys ->
  dict_get (supplied_fields w wtimeout j fsync) k = None.
Proof.
  intros Hk. apply dict_get_None. rewrite supplied_fields_keys.
  intros Hin. apply filter_In in Hin. tauto.
Qed.

Lemma py_eq_supplied (x y : pyval) :
  match supplied x, supplied y with
  | Some u, Some v => py_eq u v = true
  | None, None => True
  | _, _ => False
  end <-> py_eq x y = true.
Proof.
  destruct x, y; cbn; try tauto; split; try discriminate; auto;
    try contradiction.
Qed.

Lemma same_mapping_supplied_fields (w1 wt1 j1 f1 w2 wt2 j2 f2 : pyval) :
  same_mapping (supplied_fields w1 wt1 j1 f1) (supplied_fields w2 wt2 j2 f2)
  <-> py_eq wt1 wt2 = true /\ py_eq j1 j2 = true /\
      py_eq f1 f2 = true /\ py_eq w1 w2 = true.
Proof.
  destruct (supplied_fields_get w1 wt1 j1 f1) as (A1 & A2 & A3 & A4).
  destruct (supplied_fields_get w2 wt2 j2 f2) as (B1 & B2 & B3 & B4).
  unfold same_mapping. split.
  - intros H.
    pose proof (H "wtimeout") as H1. pose proof (H "j") as H2.
    pose proof (H "fsync") as H3. pose proof (H "w") as H4.
    rewrite A1, B1 in H1. rewrite A2, B2 in H2.
    rewrite A3, B3 in H3. rewrite A4, B4 in H4.
    rewrite py_eq_supplied in H1, H2, H3, H4. auto.
  - intros (H1 & H2 & H3 & H4) k.
    rewrite <- py_eq_supplied in H1, H2, H3, H4.
    destruct (in_dec string_dec k canonical_keys) as [Hin|Hout].
    + unfold canonical_keys in Hin. cbn in Hin.
      destruct Hin as [<-|[<-|[<-|[<-|[]]]]].
      * now rewrite A1, B1.
      * now rewrite A2, B2.
      * now rewrite A3, B3.
      * now rewrite A4, B4.
    + now rewrite !supplied_fields_other_key.
Qed.

Lemma eq_of_new (w1 wt1 j1 f1 w2 wt2 j2 f2 : pyval)
    (h h1 h2 : heap) (a b : WriteConcern) :
  __init__ w1 wt1 j1 f1 h = (inr a, h1) ->
  __init__ w2 wt2 j2 f2 h1 = (inr b, h2) ->
  (__document a < length h2)%nat /\
  dict_eqb (heap_get h2 (__document a)) (heap_get h2 (__document b)) =
    py_eq wt1 wt2 && py_eq j1 j2 && py_eq f1 f2 && py_eq w1 w2.
Proof.
  intros Ha Hb.
  apply init_returns in Ha as (Hok1 & -> & ->).
  apply init_returns in Hb as (Hok2 & -> & ->).
  cbn [__document]. split; [rewrite !length_app; cbn; lia|].
  rewrite heap_get_last, heap_get_old, heap_get_last
    by (rewrite length_app; cbn; lia).
  apply eq_true_iff_eq.
  rewrite dict_eqb_same_mapping by apply supplied_fields_NoDup.
  rewrite same_mapping_supplied_fields, !andb_true_iff. tauto.
Qed.

(** X6: two instances built one after the other are equal exactly when their
    arguments are equal one by one under [==] (an absent argument equals
    only an absent one), and [!=] answers the opposite. *)
Theorem eq_by_arguments (w1 wt1 j1 f1 w2 wt2 j2 f2 : pyval)
    (h h1 h2 : heap) (a b : WriteConcern) :
  __init__ w1 wt1 j1 f1 h = (inr a, h1) ->
  __init__ w2 wt2 j2 f2 h1 = (inr b, h2) ->
  answer (__eq__ a (OWriteConcern b) h2) =
    Some (py_eq wt1 wt2 && py_eq j1 j2 && py_eq f1 f2 && py_eq w1 w2) /\
  answer (__ne__ a (OWriteConcern b) h2) =
    Some (negb (py_eq wt1 wt2 && py_eq j1 j2 && py_eq f1 f2 && py_eq w1 w2)).
Proof.
  intros Ha Hb.
  destruct (eq_of_new _ _ _ _ _ _ _ _ _ _ _ _ _ Ha Hb) as [La E].
  rewrite eq_run, ne_run by exact La. now rewrite E.
Qed.

Lemma eq_by_arguments_example :
  __init__ (PInt 1) PNone (PBool false) PNone [] =
    (inr (mkWriteConcern 0%nat true false),
     [[("j", PBool false); ("w", PInt 1)]]) /\
  __init__ (PBool true) PNone (PBool false) PNone
           [[("j", PBool false); ("w", PInt 1)]] =
    (inr (mkWriteConcern 1%nat true false),
     [[("j", PBool false); ("w", PInt 1)];
      [("j", PBool false); ("w", PBool true)]]) /\
  answer (__eq__ (mkWriteConcern 0%nat true false)
            (OWriteConcern (mkWriteConcern 1%nat true false))
            [[("j", PBool false); ("w", PInt 1)];
             [("j", PBool false); ("w", PBool true)]]) =
    Some (py_eq PNone PNone && py_eq (PBool false) (PBool false) &&
          py_eq PNone PNone && py_eq (PInt 1) (PBool true)) /\
  answer (__ne__ (mkWriteConcern 0%nat true false)
            (OWriteConcern (mkWriteConcern 1%nat true false))
            [[("j", PBool false); ("w", PInt 1)];
             [("j", PBool false); ("w", PBool true)]]) =
    Some (negb (py_eq PNone PNone && py_eq (PBool false) (PBool false) &&
                py_eq PNone PNone && py_eq (PInt 1) (PBool true))).
Proof.
  split; [reflexivity|]. split; [reflexivity|].
  apply (eq_by_arguments (PInt 1) PNone (PBool false) PNone
           (PBool true) PNone (PBool false) PNone []
           [[("j", PBool false); ("w", PInt 1)]]); reflexivity.
Defined.

(* ================================================================== *)
(** ** Equal instances *)

Lemma acknowledged_of_py_eq (x y : pyval) :
  (is_not_None x = true -> doc_value x = true) ->
  (is_not_None y = true -> doc_value y = true) ->
  py_eq x y = true -> acknowledged_of x = acknowledged_of y.
Proof.
  intros Hx Hy. unfold acknowledged_of, py_gt0.
  destruct x as [|bx|zx| | |], y as [|by_|zy| | |];
    cbn [py_eq doc_value is_not_None isinstance_int isinstance_str
         int_value orb] in *;
    try discriminate; auto;
    try (specialize (Hx eq_refl); discriminate);
    try (specialize (Hy eq_refl); discriminate);
    intros H; apply Z.eqb_eq in H; now rewrite H.
Qed.

(** X7: equal instances answer the same to [acknowledged] and to
    [is_server_default]. *)
Theorem eq_respects_flags (h : heap) (a b : WriteConcern) :
  constructed h a -> constructed h b ->
  answer (__eq__ a (OWriteConcern b) h) = Some true ->
  returned (acknowledged a h) = returned (acknowledged b h) /\
  returned (is_server_default a h) = returned (is_server_default b h).
Proof.
  intros Ha Hb. rewrite eq_run by now apply constructed_live.
  destruct (constructed_inv _ _ Ha)
    as (w1 & wt1 & j1 & f1 & Hok1 & _ & -> & Hack1 & Hsd1).
  destruct (constructed_inv _ _ Hb)
    as (w2 & wt2 & j2 & f2 & Hok2 & _ & -> & Hack2 & Hsd2).
  intros [= Heq]. cbn. rewrite Hack1, Hack2, Hsd1, Hsd2. split; f_equal.
  - apply dict_eqb_same_mapping in Heq; try apply supplied_fields_NoDup.
    apply same_mapping_supplied_fields in Heq as (_ & _ & _ & Hw).
    apply acknowledged_of_py_eq; [| |exact Hw].
    + now apply (rules_hold _ _ _ _ Hok1).
    + now apply (rules_hold _ _ _ _ Hok2).
  - unfold dict_eqb in Heq. apply andb_true_iff in Heq as [Hlen _].
    apply Nat.eqb_eq in Hlen.
    destruct (supplied_fields w1 wt1 j1 f1), (supplied_fields w2 wt2 j2 f2);
      cbn in *; auto; discriminate.
Qed.

Lemma eq_respects_flags_example :
  let h := [[("w", PInt 0)]; [("w", PBool false)]] in
  let a := mkWriteConcern 0%nat false false in
  let b := mkWriteConcern 1%nat false false in
  (constructed h a /\ constructed h b /\
   answer (__eq__ a (OWriteConcern b) h) = Some true) /\
  returned (acknowledged a h) = returned (acknowledged b h) /\
  returned (is_server_default a h) = returned (is_server_default b h).
Proof.
  intros h a b.
  assert (Ha : constructed h a).
  { exists (PInt 0), PNone, PNone, PNone, [], [[("w", PInt 0)]].
    split; [reflexivity|]. split; [cbn; lia | reflexivity]. }
  assert (Hb : constructed h b).
  { exists (PBool false), PNone, PNone, PNone, [[("w", PInt 0)]], h.
    split; [reflexivity|]. split; [cbn; lia | reflexivity]. }
  assert (He : answer (__eq__ a (OWriteConcern b) h) = Some true)
    by reflexivity.
  split; [auto|].
  exact (eq_respects_flags h a b Ha Hb He).
Defined.

(** X8: an instance equals the shared default constant, on either side of
    [==], exactly when it is a server default. *)
Theorem eq_default_iff_server_default (h0 h1 h : heap) (d a : WriteConcern) :
  DEFAULT_WRITE_CONCERN h0 = (inr d, h1) ->
  constructed h d -> constructed h a ->
  answer (__eq__ a (OWriteConcern d) h) = returned (is_server_default a h) /\
  answer (__eq__ d (OWriteConcern a) h) = returned (is_server_default a h).
Proof.
  intros Hdef Hd Ha. unfold DEFAULT_WRITE_CONCERN in Hdef.
  apply init_returns in Hdef as (_ & Hdv & _).
  rewrite !eq_run by now apply constructed_live.
  destruct (constructed_inv _ _ Hd)
    as (w2 & wt2 & j2 & f2 & _ & _ & -> & _ & Hsd2).
  destruct (constructed_inv _ _ Ha)
    as (w1 & wt1 & j1 & f1 & _ & _ & -> & _ & Hsd1).
  rewrite Hdv in Hsd2. cbn in Hsd2. cbn. rewrite Hsd1.
  destruct (supplied_fields w2 wt2 j2 f2); [|discriminate].
  destruct (supplied_fields w1 wt1 j1 f1); split; reflexivity.
Qed.

Lemma eq_default_iff_server_default_example :
  let h := [[]; [("fsync", PBool true)]] in
  let d := mkWriteConcern 0%nat true true in
  let a := mkWriteConcern 1%nat true false in
  (DEFAULT_WRITE_CONCERN [] = (inr d, [[]]) /\
   constructed h d /\ constructed h a) /\
  answer (__eq__ a (OWriteConcern d) h) = returned (is_server_default a h) /\
  answer (__eq__ d (OWriteConcern a) h) = returned (is_server_default a h).
Proof.
  intros h d a.
  assert (Hdef : DEFAULT_WRITE_CONCERN [] = (inr d, [[]])) by reflexivity.
  assert (Hd : constructed h d).
  { exists PNone, PNone, PNone, PNone, [], [[]].
    split; [reflexivity|]. split; [cbn; lia | reflexivity]. }
  assert (Ha : constructed h a).
  { exists PNone, PNone, PNone, (PBool true), [[]], h.
    split; [reflexivity|]. split; [cbn; lia | reflexivity]. }
  split; [auto|].
  exact (eq_default_iff_server_default [] [[]] h d a Hdef Hd Ha).
Defined.

(* ================================================================== *)
(** ** Printing *)






